(** * Polar-plant EC dashboard (src/main.py): data pipeline and its properties

    A shallow embedding of the file resolver, the two cached loaders, the
    aggregation code of the three tabs and the top-level script of
    [src/main.py], followed by the properties proved of them.

    Modelling conventions
    - A Python [str] is the list of its Unicode code points ([list N]).
    - A numeric cell of a pandas table is [option Q]: [Some q] is a number,
      [None] is the missing value (NaN / None).  Numbers are rationals, as
      every finite binary64 number is one.  [mean] is the exact mean; pandas
      rounds, so the computations of the best EC are also given over any
      mean of a group ([reduce] in [group_mean_by_EC], [overview_best_ec],
      [results_best_ec]), with the outcomes of [idxmax] before and from
      pandas 3.0 told apart.  The runs of the script use the exact mean and
      the [idxmax] of pandas 3.0; infinite means are outside the model.
      Columns are typed: the columns the script reads exist and are numeric,
      also in a table without rows.
    - A Python [dict] is an association list in insertion order.
    - [unicodedata.normalize("NFC", _)] is a parameter of the development
      ([normalize]); [Hangul] gives the Unicode algorithm on the code points
      the repository's file names are made of, and instantiates it in the
      examples.
    - The file system is what the program observes of it: the listing of the
      data directory and the table each file parses to.  A missing data
      directory and a file that does not parse are outside the model.
    - Streamlit calls are recorded as a list of events; [st.stop] and Python
      exceptions end the script run.  Spinners, which leave nothing on the
      page, are not recorded.
    - [st.cache_data] is a memo table that lives as long as the server
      process; clearing it from outside is not modelled. *)

From Stdlib Require Import List Bool NArith ZArith QArith Qreduction Lia Sorted.
Import ListNotations.

Set Implicit Arguments.
Close Scope Q_scope.

(* ------------------------------------------------------------------ *)
(** * Text *)

Definition str := list N.

Fixpoint str_eqb (a b : str) : bool :=
  match a, b with
  | [], [] => true
  | x :: a', y :: b' => N.eqb x y && str_eqb a' b'
  | _, _ => false
  end.

(** Python's [<] on [str]: lexicographic on code points. *)
Fixpoint str_compare (a b : str) : comparison :=
  match a, b with
  | [], [] => Eq
  | [], _ :: _ => Lt
  | _ :: _, [] => Gt
  | x :: a', y :: b' =>
      match N.compare x y with
      | Eq => str_compare a' b'
      | c => c
      end
  end.

(* ------------------------------------------------------------------ *)
(** * Hangul canonical composition and decomposition

    Unicode Standard, section 3.12 (conjoining jamo behaviour).  On text made
    of Hangul syllables, conjoining jamo and code points without a canonical
    decomposition (ASCII among them), NFD is [nfd] and NFC is [nfc]. *)

Module Hangul.

Definition SBase : N := 44032.  (* U+AC00 *)
Definition LBase : N := 4352.   (* U+1100 *)
Definition VBase : N := 4449.   (* U+1161 *)
Definition TBase : N := 4519.   (* U+11A7 *)
Definition LCount : N := 19.
Definition VCount : N := 21.
Definition TCount : N := 28.
Definition NCount : N := 588.   (* VCount * TCount *)
Definition SCount : N := 11172. (* LCount * NCount *)

Definition is_syllable (c : N) : bool :=
  (SBase <=? c)%N && (c <? SBase + SCount)%N.

Definition decompose_cp (c : N) : str :=
  if is_syllable c then
    let i := (c - SBase)%N in
    let l := (LBase + i / NCount)%N in
    let v := (VBase + (i mod NCount) / TCount)%N in
    let t := (i mod TCount)%N in
    if (t =? 0)%N then [l; v] else [l; v; (TBase + t)%N]
  else [c].

Definition nfd (s : str) : str := flat_map decompose_cp s.

(** One composition step: [last] is the last code point written, [ch] the
    next one read. *)
Definition compose_pair (last ch : N) : option N :=
  if (LBase <=? last)%N && (last <? LBase + LCount)%N
     && (VBase <=? ch)%N && (ch <? VBase + VCount)%N
  then Some (SBase + ((last - LBase) * VCount + (ch - VBase)) * TCount)%N
  else if is_syllable last && ((last - SBase) mod TCount =? 0)%N
          && (TBase <? ch)%N && (ch <? TBase + TCount)%N
  then Some (last + (ch - TBase))%N
  else None.

Fixpoint compose_from (last : N) (s : str) : str :=
  match s with
  | [] => [last]
  | ch :: s' =>
      match compose_pair last ch with
      | Some c => compose_from c s'
      | None => last :: compose_from ch s'
      end
  end.

Definition compose (s : str) : str :=
  match s with
  | [] => []
  | c :: s' => compose_from c s'
  end.

Definition nfc (s : str) : str := compose (nfd s).

(** The code points on which [nfd] and [nfc] are the Unicode forms: ASCII,
    the Hangul Jamo block U+1100..U+11FF and the Hangul syllables. *)
Definition in_repertoire (c : N) : bool :=
  (c <? 128)%N || ((4352 <=? c)%N && (c <=? 4607)%N) || is_syllable c.

End Hangul.

(* ------------------------------------------------------------------ *)
(** * File resolver (main.py, lines 46-54) *)

Section Resolver.

(** [unicodedata.normalize("NFC", text)] *)
Variable normalize : str -> str.

(** [directory] is the listing [directory.iterdir()] yields, each entry by
    its [file.name], in the order the operating system gives them. *)
Fixpoint find_file_by_name (directory : list str) (target_name : str)
  : option str :=
  match directory with
  | [] => None
  | file :: rest =>
      if str_eqb (normalize file) (normalize target_name)
      then Some file
      else find_file_by_name rest target_name
  end.

End Resolver.

(* ------------------------------------------------------------------ *)
(** * Python dictionaries with [str] keys, in insertion order *)

Definition dict (V : Type) := list (str * V).

Fixpoint dict_get {V} (d : dict V) (k : str) : option V :=
  match d with
  | [] => None
  | (k', v) :: d' => if str_eqb k' k then Some v else dict_get d' k
  end.

(** [d[k] = v]: an existing key keeps its place, a new key goes last. *)
Fixpoint dict_set {V} (d : dict V) (k : str) (v : V) : dict V :=
  match d with
  | [] => [(k, v)]
  | (k', v') :: d' =>
      if str_eqb k' k then (k', v) :: d' else (k', v') :: dict_set d' k v
  end.

Definition dict_keys {V} (d : dict V) : list str := map fst d.
Definition dict_values {V} (d : dict V) : list V := map snd d.

(* ------------------------------------------------------------------ *)
(** * Constants (main.py, lines 33-41) and string literals *)

Definition songdo : str := [49569; 46020; 44256]%N.   (* U+C1A1 U+B3C4 U+ACE0 *)
Definition haneul : str := [54616; 45720; 44256]%N.   (* U+D558 U+B298 U+ACE0 *)
Definition ara : str := [50500; 46972; 44256]%N.      (* U+C544 U+B77C U+ACE0 *)
Definition dongsan : str := [46041; 49328; 44256]%N.  (* U+B3D9 U+C0B0 U+ACE0 *)

Definition EC_INFO : dict Q :=
  [(songdo, 1); (haneul, 2); (ara, 4); (dongsan, 8)]%Q.

(** ["_<env data>.csv"], the tail of [f"{school}_...csv"] (line 64). *)
Definition env_suffix : str :=
  [95; 54872; 44221; 45936; 51060; 53552; 46; 99; 115; 118]%N.

Definition env_filename (school : str) : str := school ++ env_suffix.

(** The spreadsheet's name (line 77). *)
Definition xlsx_name : str :=
  [52; 44060; 44368; 95; 49373; 50977; 44208; 44284; 45936; 51060; 53552;
   46; 120; 108; 115; 120]%N.

(** The text before the file name in the message of line 67. *)
Definition env_error_prefix : str :=
  [54872; 44221; 32; 45936; 51060; 53552; 32; 54028; 51068; 51012; 32; 52286;
   51012; 32; 49688; 32; 50630; 49845; 45768; 45796; 58; 32]%N.

(** The message of line 80. *)
Definition growth_error : str :=
  [49373; 50977; 32; 44208; 44284; 32; 50641; 49472; 32; 54028; 51068; 51012;
   32; 52286; 51012; 32; 49688; 32; 50630; 49845; 45768; 45796; 46]%N.

(** The first entry of the sidebar's select box (line 104), "all". *)
Definition all_schools : str := [51204; 52404]%N.

(* ------------------------------------------------------------------ *)
(** * Tables *)

(** A numeric cell: [None] is the missing value. *)
Definition cell := option Q.

(** A row of a school's environment file as [pd.read_csv] gives it. *)
Record EnvRaw := {
  time : str;
  temperature : cell;
  humidity : cell;
  ph : cell;
  ec : cell
}.

(** The same row after line 70 has added the school column. *)
Record EnvRow := {
  env_school : str;
  env_raw : EnvRaw
}.

(** A row of a sheet of the growth spreadsheet: fresh weight (g), leaf
    count, shoot length (mm). *)
Record GrowthRaw := {
  weight : cell;
  leaves : cell;
  shoot : cell
}.

(** The same row after lines 87-88 have added the school and EC columns. *)
Record GrowthRow := {
  growth_school : str;
  EC : cell;
  growth_raw : GrowthRaw
}.

Definition EnvData := dict (list EnvRow).
Definition GrowthData := dict (list GrowthRow).

(** What the program can observe of the data directory. *)
Record FileSystem := {
  listing : list str;
  read_csv : str -> list EnvRaw;
  excel_sheets : str -> dict (list GrowthRaw)
}.

(* ------------------------------------------------------------------ *)
(** * The pandas operations the script uses *)

Definition present (xs : list cell) : list Q :=
  flat_map (fun c => match c with Some q => [q] | None => [] end) xs.

Definition Qsum (qs : list Q) : Q := fold_right Qplus 0%Q qs.

(** [Series.mean()]: missing values are skipped; a series without a value has
    a missing mean. *)
Definition mean (xs : list cell) : cell :=
  match present xs with
  | [] => None
  | q :: qs => Some (Qred (Qsum (q :: qs) / inject_Z (Z.of_nat (length (q :: qs))))%Q)
  end.

Section Groupby.

Variables K R : Type.
Variable cmp : K -> K -> comparison.
Variable key : R -> option K.

(** Add key [k] to the distinct keys seen so far, kept in ascending order. *)
Fixpoint insert_key (k : K) (ks : list K) : list K :=
  match ks with
  | [] => [k]
  | k' :: ks' =>
      match cmp k k' with
      | Lt => k :: k' :: ks'
      | Eq => k' :: ks'
      | Gt => k' :: insert_key k ks'
      end
  end.

Definition key_step (ks : list K) (r : R) : list K :=
  match key r with
  | Some k => insert_key k ks
  | None => ks
  end.

(** The distinct key values of the table, ascending. *)
Definition group_keys (rows : list R) : list K := fold_left key_step rows [].

Definition in_group (k : K) (r : R) : bool :=
  match key r with
  | Some k' => match cmp k' k with Eq => true | _ => false end
  | None => false
  end.

(** [df.groupby(col)] with the defaults [sort=True, dropna=True]: one group
    per key value, keys ascending, rows in table order inside a group, rows
    with a missing key in no group. *)
Definition groupby (rows : list R) : list (K * list R) :=
  map (fun k => (k, filter (in_group k) rows)) (group_keys rows).

End Groupby.

(** [Series.idxmax()]: the label of the first maximal value, missing values
    skipped.  [None] when there is no value to take the maximum of (an empty
    or all-missing series): pandas raises [ValueError] there (releases before
    3.0 answer NaN for a non-empty, all-missing series). *)
Fixpoint idxmax_from {L} (best : L) (bv : Q) (s : list (L * cell)) : L :=
  match s with
  | [] => best
  | (_, None) :: s' => idxmax_from best bv s'
  | (l, Some v) :: s' =>
      match (bv ?= v)%Q with
      | Lt => idxmax_from l v s'
      | _ => idxmax_from best bv s'
      end
  end.

Fixpoint idxmax {L} (s : list (L * cell)) : option L :=
  match s with
  | [] => None
  | (_, None) :: s' => idxmax s'
  | (l, Some v) :: s' => Some (idxmax_from l v s')
  end.

(** [Series.reset_index()]: the old index becomes a column and the rows are
    labelled 0, 1, 2, ... *)
Definition reset_index {A B} (s : list (A * B)) : list (nat * (A * B)) :=
  combine (seq 0 (length s)) s.

(** [df[col]] of a frame labelled by position. *)
Definition column {A B} (f : A -> B) (df : list (nat * A)) : list (nat * B) :=
  map (fun r => (fst r, f (snd r))) df.

(** [df.loc[label, col]]; [None] is a [KeyError]. *)
Fixpoint loc {A B} (df : list (nat * A)) (label : nat) (f : A -> B) : option B :=
  match df with
  | [] => None
  | (i, r) :: df' => if Nat.eqb i label then Some (f r) else loc df' label f
  end.

(* ------------------------------------------------------------------ *)
(** * Aggregation (main.py, lines 134-143, 157-158, 218-222, 246-248) *)

(** The Python exceptions of the script. *)
Inductive Exn := KeyError | ValueError.

Definition growth_weight (r : GrowthRow) : cell := weight (growth_raw r).
Definition growth_leaves (r : GrowthRow) : cell := leaves (growth_raw r).
Definition growth_shoot (r : GrowthRow) : cell := shoot (growth_raw r).

(** [growth_all.groupby("EC")[col].mean()]: a series indexed by EC.  pandas
    computes the mean of a group in binary64; [reduce] stands for that
    computation, from the cells of a group to the cell of its mean. *)
Definition group_mean_by_EC (reduce : list cell -> cell)
    (col : GrowthRow -> cell) (growth_all : list GrowthRow) : list (Q * cell) :=
  map (fun g => (fst g, reduce (map col (snd g))))
      (groupby Qcompare EC growth_all).

(** The same series with the exact mean, as the runs of the script below
    compute it. *)
Definition mean_by_EC (col : GrowthRow -> cell) (growth_all : list GrowthRow)
  : list (Q * cell) :=
  group_mean_by_EC mean col growth_all.

(** [growth_all.groupby("EC").size()] *)
Definition size_by_EC (growth_all : list GrowthRow) : list (Q * nat) :=
  map (fun g => (fst g, length (snd g))) (groupby Qcompare EC growth_all).

(** Lines 139-143: [growth_all.groupby("EC")[weight].mean().idxmax()], the EC
    level when there is one ([overview_best_ec] below tells the other
    outcomes apart). *)
Definition best_ec_overview (growth_all : list GrowthRow) : option Q :=
  idxmax (mean_by_EC growth_weight growth_all).

(** Line 221: [growth_all.groupby("EC")[weight].mean().reset_index()]. *)
Definition mean_weight (growth_all : list GrowthRow) : list (nat * (Q * cell)) :=
  reset_index (mean_by_EC growth_weight growth_all).

(** Line 222: [mean_weight.loc[mean_weight[weight].idxmax(), "EC"]], the EC
    level when there is one ([results_best_ec] below tells the other
    outcomes apart). *)
Definition best_ec_results (growth_all : list GrowthRow) : option Q :=
  match idxmax (column snd (mean_weight growth_all)) with
  | Some i => loc (mean_weight growth_all) i fst
  | None => None
  end.

(** What a computation of the best EC ends in. *)
Inductive Best :=
| Level (ec : Q)       (* an EC level, the label of a group *)
| NaN                  (* the NaN pandas before 3.0 gives for [idxmax] of a
                          series that has entries but no value *)
| Fails (e : Exn).

(** [Series.idxmax()] with its failures told apart. *)
Inductive Idxmax (L : Type) :=
| Label (l : L)
| EmptySeries          (* no entry: [ValueError] in every pandas *)
| AllMissing.          (* entries but no value: NaN with a warning before
                          pandas 3.0, [ValueError] from 3.0 on *)

Arguments Label {L} l.
Arguments EmptySeries {L}.
Arguments AllMissing {L}.

Definition idxmax_outcome {L} (s : list (L * cell)) : Idxmax L :=
  match s with
  | [] => EmptySeries
  | _ :: _ =>
      match idxmax s with
      | Some l => Label l
      | None => AllMissing
      end
  end.

Section BestECOutcomes.

(** pandas' binary64 mean of a group. *)
Variable reduce : list cell -> cell.

(** Whether pandas is older than 3.0. *)
Variable before_pandas_3 : bool.

(** Lines 139-143, with what they end in. *)
Definition overview_best_ec (growth_all : list GrowthRow) : Best :=
  match idxmax_outcome (group_mean_by_EC reduce growth_weight growth_all) with
  | Label ec => Level ec
  | EmptySeries => Fails ValueError
  | AllMissing => if before_pandas_3 then NaN else Fails ValueError
  end.

(** Lines 221-222, with what they end in: with the NaN label of pandas before
    3.0, [.loc] raises [KeyError]. *)
Definition results_best_ec (growth_all : list GrowthRow) : Best :=
  let mean_weight := reset_index (group_mean_by_EC reduce growth_weight growth_all) in
  match idxmax_outcome (column snd mean_weight) with
  | Label i =>
      match loc mean_weight i fst with
      | Some ec => Level ec
      | None => Fails KeyError
      end
  | EmptySeries => Fails ValueError
  | AllMissing => if before_pandas_3 then Fails KeyError else Fails ValueError
  end.

End BestECOutcomes.

Record EnvMeans := {
  mean_temperature : cell;
  mean_humidity : cell;
  mean_ph : cell;
  mean_ec : cell
}.

Definition env_col (f : EnvRaw -> cell) (rows : list EnvRow) : list cell :=
  map (fun r => f (env_raw r)) rows.

Definition env_means_of (rows : list EnvRow) : EnvMeans :=
  {| mean_temperature := mean (env_col temperature rows);
     mean_humidity := mean (env_col humidity rows);
     mean_ph := mean (env_col ph rows);
     mean_ec := mean (env_col ec rows) |}.

(** Line 158: [env_all.groupby(school).mean(numeric_only=True).reset_index()]. *)
Definition env_mean (env_all : list EnvRow) : list (nat * (str * EnvMeans)) :=
  reset_index
    (map (fun g => (fst g, env_means_of (snd g)))
         (groupby str_compare (fun r => Some (env_school r)) env_all)).

(* ------------------------------------------------------------------ *)
(** * Effects: Streamlit output, file reads, the two caches *)

Inductive IO :=
| IterDir
| ReadCsv (path : str)
| OpenExcel (path : str).

(** Calls that draw fixed content. *)
Inductive Widget :=
| page_config | css | sidebar_title | selectbox | title | tabs
| subheader | markdown | expander.

(** [metric(label, value)] calls, by label, with the number that is
    formatted into the value. *)
Inductive Metric :=
| TotalPlants (n : nat)                       (* line 146 *)
| AvgTemperature (t : cell)                   (* line 147 *)
| AvgHumidity (h : cell)                      (* line 148 *)
| BestEC (ec : Q)                             (* line 149 *)
| ECWeight (ec : Q) (star : bool) (w : cell). (* line 229 *)

Inductive Figure :=
| FigEnvMeans (em : list (nat * (str * EnvMeans)))        (* lines 160-183 *)
| FigTimeSeries (df : list EnvRow) (target : Q)           (* lines 190-200 *)
| FigByEC (w l s : list (Q * cell)) (n : list (Q * nat))  (* lines 240-253 *)
| FigBox (rows : list GrowthRow)                          (* lines 256-263 *)
| FigLeavesWeight (rows : list GrowthRow)                 (* lines 268-275 *)
| FigShootWeight (rows : list GrowthRow).                 (* lines 277-284 *)

Inductive Event :=
| Static (w : Widget)
| Error (msg : str)
| InfoTable (rows : list (str * Q * nat))
| EnvTable (rows : list EnvRow)
| GrowthTable (rows : list GrowthRow)
| ShowMetric (m : Metric)
| Chart (f : Figure)
| DownloadCsv (rows : list EnvRow)
| DownloadXlsx (rows : list GrowthRow).

(** The state of the server process.  The caches of [st.cache_data] hold the
    returned value with the elements drawn while it was computed, and live
    as long as the process; [ui] is the page drawn by the current run. *)
Record State := {
  env_cache : option (option EnvData * list Event);
  growth_cache : option (option GrowthData * list Event);
  io_log : list IO;
  ui : list Event
}.

Definition init_state : State :=
  {| env_cache := None; growth_cache := None; io_log := []; ui := [] |}.

Inductive Outcome (A : Type) :=
| Value (a : A)
| Stopped                 (* [st.stop()] *)
| Raised (e : Exn).

Arguments Value {A} a.
Arguments Stopped {A}.
Arguments Raised {A} e.

Definition M (A : Type) := State -> Outcome A * State.

Definition ret {A} (a : A) : M A := fun s => (Value a, s).

Definition bind {A B} (c : M A) (k : A -> M B) : M B :=
  fun s =>
    match c s with
    | (Value a, s') => k a s'
    | (Stopped, s') => (Stopped, s')
    | (Raised e, s') => (Raised e, s')
    end.

Notation "'let*' x ':=' c 'in' k" := (bind c (fun x => k))
  (at level 10, x name, c at level 100, k at level 200).
Notation "c ;; k" := (bind c (fun _ => k))
  (at level 100, k at level 200, right associativity).

Definition emit (e : Event) : M unit :=
  fun s => (Value tt,
            {| env_cache := env_cache s; growth_cache := growth_cache s;
               io_log := io_log s; ui := ui s ++ [e] |}).

Definition emit_all (es : list Event) : M unit :=
  fun s => (Value tt,
            {| env_cache := env_cache s; growth_cache := growth_cache s;
               io_log := io_log s; ui := ui s ++ es |}).

Definition io (x : IO) : M unit :=
  fun s => (Value tt,
            {| env_cache := env_cache s; growth_cache := growth_cache s;
               io_log := io_log s ++ [x]; ui := ui s |}).

Definition stop {A} : M A := fun s => (Stopped, s).
Definition raise {A} (e : Exn) : M A := fun s => (Raised e, s).

(** [d[k]] *)
Definition getitem {V} (d : dict V) (k : str) : M V :=
  match dict_get d k with
  | Some v => ret v
  | None => raise KeyError
  end.

Fixpoint mapM {A B} (f : A -> M B) (l : list A) : M (list B) :=
  match l with
  | [] => ret []
  | a :: l' => let* b := f a in let* bs := mapM f l' in ret (b :: bs)
  end.

Definition with_ui (s : State) (u : list Event) : State :=
  {| env_cache := env_cache s; growth_cache := growth_cache s;
     io_log := io_log s; ui := u |}.

(** [@st.cache_data] on a function without arguments: the first call runs the
    body and stores its value and the elements it drew; a later call returns
    the stored value and draws the stored elements again, without running
    the body. *)
Definition cache_data {A}
    (get : State -> option (A * list Event))
    (put : A * list Event -> State -> State)
    (body : M A) : M A :=
  fun s =>
    match get s with
    | Some (a, drawn) => (Value a, with_ui s (ui s ++ drawn))
    | None =>
        match body (with_ui s []) with
        | (Value a, s') => (Value a, with_ui (put (a, ui s') s') (ui s ++ ui s'))
        | (Stopped, s') => (Stopped, with_ui s' (ui s ++ ui s'))
        | (Raised e, s') => (Raised e, with_ui s' (ui s ++ ui s'))
        end
    end.

Definition put_env (v : option EnvData * list Event) (s : State) : State :=
  {| env_cache := Some v; growth_cache := growth_cache s;
     io_log := io_log s; ui := ui s |}.

Definition put_growth (v : option GrowthData * list Event) (s : State) : State :=
  {| env_cache := env_cache s; growth_cache := Some v;
     io_log := io_log s; ui := ui s |}.

(* ------------------------------------------------------------------ *)
(** * The loaders (lines 59-90) and the script (lines 13-26, 92-295) *)

Section Script.

Variable normalize : str -> str.
Variable fs : FileSystem.

(** [find_file_by_name(DATA_DIR, name)], with the directory read it makes. *)
Definition resolve (name : str) : M (option str) :=
  io IterDir ;; ret (find_file_by_name normalize (listing fs) name).

Definition tag_env (school : str) (rows : list EnvRaw) : list EnvRow :=
  map (fun r => {| env_school := school; env_raw := r |}) rows.

(** The loop of lines 63-71 over the schools still to load. *)
Fixpoint load_environment_loop (schools : list str) (data : EnvData)
  : M (option EnvData) :=
  match schools with
  | [] => ret (Some data)
  | school :: rest =>
      let filename := env_filename school in
      let* file_path := resolve filename in
      match file_path with
      | None => emit (Error (env_error_prefix ++ filename)) ;; ret None
      | Some p =>
          io (ReadCsv p) ;;
          let df := tag_env school (read_csv fs p) in
          load_environment_loop rest (dict_set data school df)
      end
  end.

Definition load_environment_body : M (option EnvData) :=
  load_environment_loop (dict_keys EC_INFO) [].

Definition load_environment_data : M (option EnvData) :=
  cache_data env_cache put_env load_environment_body.

Definition tag_growth (sheet : str) (rows : list GrowthRaw) : list GrowthRow :=
  map (fun r => {| growth_school := sheet; EC := dict_get EC_INFO sheet;
                   growth_raw := r |}) rows.

(** [pd.read_excel(xls, sheet_name=sheet)] *)
Definition read_excel (xls : dict (list GrowthRaw)) (sheet : str)
  : list GrowthRaw :=
  match dict_get xls sheet with
  | Some rows => rows
  | None => []
  end.

(** The loop of lines 85-89 over [xls.sheet_names]. *)
Fixpoint load_growth_loop (xls : dict (list GrowthRaw)) (sheets : list str)
    (data : GrowthData) : GrowthData :=
  match sheets with
  | [] => data
  | sheet :: rest =>
      let df := tag_growth sheet (read_excel xls sheet) in
      load_growth_loop xls rest (dict_set data sheet df)
  end.

Definition load_growth_body : M (option GrowthData) :=
  let* file_path := resolve xlsx_name in
  match file_path with
  | None => emit (Error growth_error) ;; ret None
  | Some p =>
      io (OpenExcel p) ;;
      let xls := excel_sheets fs p in
      ret (Some (load_growth_loop xls (dict_keys xls) []))
  end.

Definition load_growth_data : M (option GrowthData) :=
  cache_data growth_cache put_growth load_growth_body.

(** Lines 126-130: the rows of [info_df]. *)
Definition info_rows (growth_data : GrowthData) : M (list (str * Q * nat)) :=
  mapM (fun kv : str * Q =>
          let* df := getitem growth_data (fst kv) in
          ret (fst kv, snd kv, length df))
       EC_INFO.

(** Line 134: [info_df[count].sum()]. *)
Definition total_plants (info_df : list (str * Q * nat)) : nat :=
  fold_right Nat.add 0 (map snd info_df).

(** Lines 117-149.  Without a best EC the run ends in the [ValueError] of
    [idxmax] (see there for pandas before 3.0). *)
Definition tab1 (env_data : EnvData) (growth_data : GrowthData) : M unit :=
  emit (Static subheader) ;;
  emit (Static markdown) ;;
  let* info_df := info_rows growth_data in
  emit (Static subheader) ;;
  emit (InfoTable info_df) ;;
  let total := total_plants info_df in
  let avg_temp := mean (env_col temperature (concat (dict_values env_data))) in
  let avg_hum := mean (env_col humidity (concat (dict_values env_data))) in
  let growth_all := concat (dict_values growth_data) in
  match best_ec_overview growth_all with
  | None => raise ValueError
  | Some best_ec =>
      emit (ShowMetric (TotalPlants total)) ;;
      emit (ShowMetric (AvgTemperature avg_temp)) ;;
      emit (ShowMetric (AvgHumidity avg_hum)) ;;
      emit (ShowMetric (BestEC best_ec))
  end.

(** Lines 154-212. *)
Definition tab2 (selected_school : str) (env_data : EnvData) : M unit :=
  emit (Static subheader) ;;
  let env_all := concat (dict_values env_data) in
  emit (Chart (FigEnvMeans (env_mean env_all))) ;;
  emit (Static subheader) ;;
  (if str_eqb selected_school all_schools then ret tt
   else
     let* df := getitem env_data selected_school in
     let* target := getitem EC_INFO selected_school in
     emit (Chart (FigTimeSeries df target))) ;;
  emit (Static expander) ;;
  emit (EnvTable env_all) ;;
  emit (DownloadCsv env_all).

(** Lines 224-229: one metric per row of [mean_weight], four at most. *)
Definition ec_metrics (mw : list (nat * (Q * cell))) (best_ec : Q) : list Event :=
  map (fun row =>
         ShowMetric (ECWeight (fst (snd row))
                              (Qeq_bool (fst (snd row)) best_ec)
                              (snd (snd row))))
      (firstn 4 mw).

(** Lines 217-295.  The run cannot get here without a best EC: line 139
    raises first. *)
Definition tab3 (growth_data : GrowthData) : M unit :=
  let growth_all := concat (dict_values growth_data) in
  emit (Static subheader) ;;
  match best_ec_results growth_all with
  | None => raise ValueError
  | Some best_ec =>
      emit_all (ec_metrics (mean_weight growth_all) best_ec) ;;
      emit (Static subheader) ;;
      emit (Chart (FigByEC (mean_by_EC growth_weight growth_all)
                           (mean_by_EC growth_leaves growth_all)
                           (mean_by_EC growth_shoot growth_all)
                           (size_by_EC growth_all))) ;;
      emit (Static subheader) ;;
      emit (Chart (FigBox growth_all)) ;;
      emit (Static subheader) ;;
      emit (Chart (FigLeavesWeight growth_all)) ;;
      emit (Chart (FigShootWeight growth_all)) ;;
      emit (Static expander) ;;
      emit (GrowthTable growth_all) ;;
      emit (DownloadXlsx growth_all)
  end.

(** Lines 95-295: what the script does with the loaders' results. *)
Definition render (selected_school : str)
    (env_data : option EnvData) (growth_data : option GrowthData) : M unit :=
  match env_data, growth_data with
  | Some env_data, Some growth_data =>
      emit (Static sidebar_title) ;;
      emit (Static selectbox) ;;
      emit (Static title) ;;
      emit (Static tabs) ;;
      tab1 env_data growth_data ;;
      tab2 selected_school env_data ;;
      tab3 growth_data
  | _, _ => stop
  end.

(** One run of the script, for the school chosen in the sidebar. *)
Definition dashboard (selected_school : str) : M unit :=
  emit (Static page_config) ;;
  emit (Static css) ;;
  let* env_data := load_environment_data in
  let* growth_data := load_growth_data in
  render selected_school env_data growth_data.

(** The process: the script runs once per interaction, each run drawing a
    new page over the caches and the read log the earlier runs left. *)
Fixpoint process (selections : list str) (s : State)
  : list (Outcome unit * list Event) * State :=
  match selections with
  | [] => ([], s)
  | sel :: rest =>
      let r := dashboard sel (with_ui s []) in
      let rs := process rest (snd r) in
      ((fst r, ui (snd r)) :: fst rs, snd rs)
  end.

End Script.

(* ------------------------------------------------------------------ *)
(** * Vocabulary of the statements, and sample data *)

(** A value no larger than [v] ([cell_le]) or smaller than [v] ([cell_lt]);
    a missing value counts as both. *)
Definition cell_le (v : Q) (c : cell) : Prop :=
  match c with Some v' => (v' <= v)%Q | None => True end.

Definition cell_lt (v : Q) (c : cell) : Prop :=
  match c with Some v' => (v' < v)%Q | None => True end.

(** [ec] is the first EC level, in ascending order, whose group has the
    largest mean fresh weight as [reduce] computes the means: the series of
    group means is ascending in EC, its entry for [ec] is the mean [m] of the
    rows whose EC is [ec], every entry before it has a smaller mean or none,
    every entry after it a mean no larger or none. *)
Definition first_maximal_mean (reduce : list cell -> cell)
    (growth_all : list GrowthRow) (ec : Q) : Prop :=
  exists m before after,
    group_mean_by_EC reduce growth_weight growth_all
    = before ++ (ec, Some m) :: after /\
    reduce (map growth_weight (filter (in_group Qcompare EC ec) growth_all))
    = Some m /\
    Forall (fun g => cell_lt m (snd g)) before /\
    Forall (fun g => cell_le m (snd g)) after /\
    StronglySorted (fun a b => (fst a < fst b)%Q)
                   (group_mean_by_EC reduce growth_weight growth_all).

(** A reduction gives a value for every series that has one. *)
Definition keeps_values (reduce : list cell -> cell) : Prop :=
  forall xs q, In (Some q) xs -> reduce xs <> None.

(** Three binary64 numbers, as the rationals they are: the floating-point
    numbers nearest to 0.1 and to 0.3, and 0.5. *)
Definition double_0_1 : Q := 3602879701896397 # 36028797018963968.
Definition double_0_3 : Q := 5404319552844595 # 18014398509481984.
Definition double_0_5 : Q := 1 # 2.

(** A mean that rounds as binary64 arithmetic does on the series (0.1, 0.5),
    whose sum is 0.6 rounded and whose mean is the number 0.3 above, and that
    is exact on every other series. *)
Definition rounding_mean (xs : list cell) : cell :=
  match xs with
  | [Some a; Some b] =>
      if Qeq_bool a double_0_1 && Qeq_bool b double_0_5
      then Some double_0_3
      else mean xs
  | _ => mean xs
  end.

Definition raw_weight (w : cell) : GrowthRaw :=
  {| weight := w; leaves := None; shoot := None |}.

Definition growth_row (school : str) (ec w : cell) : GrowthRow :=
  {| growth_school := school; EC := ec; growth_raw := raw_weight w |}.

Definition sample_reading (t : cell) : EnvRaw :=
  {| time := []; temperature := t; humidity := None; ph := None; ec := None |}.

(** A data directory with the given entries, in which every file read as a
    table holds one reading and every workbook holds [sheets]. *)
Definition sample_fs (entries : list str) (sheets : dict (list GrowthRaw))
  : FileSystem :=
  {| listing := entries;
     read_csv := fun _ => [sample_reading (Some 20%Q)];
     excel_sheets := fun _ => sheets |}.

(** The five files the script looks for. *)
Definition full_listing : list str :=
  map env_filename (dict_keys EC_INFO) ++ [xlsx_name].

(** A sheet name that is not a school: "X". *)
Definition other_sheet : str := [88%N].


(** What a computation adds to a state: file reads and drawn elements. *)
Definition delta (reads : list IO) (drawn : list Event) : State :=
  {| env_cache := None; growth_cache := None; io_log := reads; ui := drawn |}.

Definition extend (s d : State) : State :=
  {| env_cache := env_cache s; growth_cache := growth_cache s;
     io_log := io_log s ++ io_log d; ui := ui s ++ ui d |}.

(** A computation that reads no cache: it does the same in every state. *)
Definition framed {A} (c : M A) : Prop :=
  forall s, c s = (fst (c init_state), extend s (snd (c init_state))).

(** A computation that only draws, and only elements satisfying [P]. *)
Definition emits {A} (P : Event -> Prop) (c : M A) : Prop :=
  forall s, exists o es, c s = (o, with_ui s (ui s ++ es)) /\ Forall P es.

(** The number of rows of a school's growth table. *)
Definition rows_of (growth_data : GrowthData) (school : str) : nat :=
  match dict_get growth_data school with
  | Some df => length df
  | None => 0
  end.

(** What the caches hold once the loaders have run on [fs]. *)
Definition env_entry (normalize : str -> str) (fs : FileSystem)
  : option EnvData * list Event :=
  match load_environment_body normalize fs init_state with
  | (Value v, d) => (v, ui d)
  | (_, d) => (None, ui d)
  end.

Definition growth_entry (normalize : str -> str) (fs : FileSystem)
  : option GrowthData * list Event :=
  match load_growth_body normalize fs init_state with
  | (Value v, d) => (v, ui d)
  | (_, d) => (None, ui d)
  end.

(** A state of a process serving [fs]: a cache is empty or holds what its
    loader gives on [fs]. *)
Definition cached_from (normalize : str -> str) (fs : FileSystem) (s : State)
  : Prop :=
  (env_cache s = None \/ env_cache s = Some (env_entry normalize fs)) /\
  (growth_cache s = None \/ growth_cache s = Some (growth_entry normalize fs)).

(** The file reads a run started in state [s] makes. *)
Definition cold_reads (normalize : str -> str) (fs : FileSystem) (s : State)
  : list IO :=
  match env_cache s with
  | Some _ => []
  | None => io_log (snd (load_environment_body normalize fs init_state))
  end ++
  match growth_cache s with
  | Some _ => []
  | None => io_log (snd (load_growth_body normalize fs init_state))
  end.

(** The outcome and the page of a run in a fresh process. *)
Definition page_of (normalize : str -> str) (fs : FileSystem) (sel : str)
  : Outcome unit * list Event :=
  let r := dashboard normalize fs sel init_state in (fst r, ui (snd r)).

(** An element other than the overview's total count. *)
Definition not_total (e : Event) : Prop :=
  forall k, e <> ShowMetric (TotalPlants k).

(* ================================================================== *)
(** * Properties *)

Unset Implicit Arguments.

(* ------------------------------------------------------------------ *)
(** ** Text *)

Lemma str_eqb_eq (a b : str) : str_eqb a b = true <-> a = b.
Proof.
  revert b; induction a as [|x a IH]; intros [|y b]; simpl;
    try (split; [discriminate | congruence]); try tauto.
  rewrite andb_true_iff, N.eqb_eq, IH.
  split; [intros [-> ->]; reflexivity | intros E; inversion E; auto].
Qed.

Lemma str_eqb_refl (a : str) : str_eqb a a = true.
Proof. now apply str_eqb_eq. Qed.

Lemma str_eqb_neq (a b : str) : str_eqb a b = false <-> a <> b.
Proof.
  rewrite <- str_eqb_eq. destruct (str_eqb a b); split; congruence.
Qed.



(* ------------------------------------------------------------------ *)
(** ** Hangul: the decomposed form of a name composes to the same text *)

Lemma decompose_cp_not_syllable (c : N) :
  Forall (fun j => Hangul.is_syllable j = false) (Hangul.decompose_cp c).
Proof.
  unfold Hangul.decompose_cp.
  destruct (Hangul.is_syllable c) eqn:S; [|constructor; auto].
  unfold Hangul.is_syllable, Hangul.SBase, Hangul.SCount in S.
  apply andb_true_iff in S; destruct S as [S1 S2].
  apply N.leb_le in S1; apply N.ltb_lt in S2.
  set (i := (c - Hangul.SBase)%N).
  assert (Hi : (i < 11172)%N) by (unfold i, Hangul.SBase; lia).
  assert (Hl : (i / Hangul.NCount < 19)%N)
    by (apply N.Div0.div_lt_upper_bound; unfold Hangul.NCount; lia).
  assert (Hn : (i mod Hangul.NCount < 588)%N)
    by (apply N.mod_lt; discriminate).
  assert (Hv : ((i mod Hangul.NCount) / Hangul.TCount < 21)%N)
    by (apply N.Div0.div_lt_upper_bound; unfold Hangul.TCount; lia).
  assert (Ht : (i mod Hangul.TCount < 28)%N)
    by (apply N.mod_lt; discriminate).
  assert (low : forall j, (j < 44032)%N -> Hangul.is_syllable j = false).
  { intros j Hj. unfold Hangul.is_syllable, Hangul.SBase.
    apply andb_false_iff; left; apply N.leb_gt; exact Hj. }
  destruct (_ =? 0)%N; repeat constructor; apply low;
    unfold Hangul.LBase, Hangul.VBase, Hangul.TBase; lia.
Qed.

Lemma nfd_idempotent (s : str) : Hangul.nfd (Hangul.nfd s) = Hangul.nfd s.
Proof.
  unfold Hangul.nfd.
  induction s as [|c s IH]; simpl; [reflexivity|].
  rewrite flat_map_app, IH; f_equal.
  pose proof (decompose_cp_not_syllable c) as F.
  induction F as [|j l Hj _ IHl]; simpl; [reflexivity|].
  rewrite IHl. unfold Hangul.decompose_cp at 1. now rewrite Hj.
Qed.

Lemma nfc_nfd (s : str) : Hangul.nfc (Hangul.nfd s) = Hangul.nfc s.
Proof. unfold Hangul.nfc. now rewrite nfd_idempotent. Qed.

(* ------------------------------------------------------------------ *)
(** ** File resolver *)

Section ResolverFacts.

Variable normalize : str -> str.

Lemma find_file_by_name_some (directory : list str) (target file : str) :
  find_file_by_name normalize directory target = Some file ->
  exists before after,
    directory = before ++ file :: after /\
    normalize file = normalize target /\
    Forall (fun f => normalize f <> normalize target) before.
Proof.
  induction directory as [|f rest IH]; simpl; [discriminate|].
  destruct (str_eqb (normalize f) (normalize target)) eqn:E.
  - intros H; injection H as <-.
    exists [], rest; repeat split; [now apply str_eqb_eq | constructor].
  - intros H. destruct (IH H) as (before & after & -> & Hm & Hb).
    exists (f :: before), after; repeat split; auto.
    constructor; [now apply str_eqb_neq | exact Hb].
Qed.

Lemma find_file_by_name_none (directory : list str) (target : str) :
  find_file_by_name normalize directory target = None <->
  Forall (fun f => normalize f <> normalize target) directory.
Proof.
  induction directory as [|f rest IH]; simpl.
  - split; [constructor | reflexivity].
  - destruct (str_eqb (normalize f) (normalize target)) eqn:E.
    + split; [discriminate|].
      intros H; inversion H; subst. apply str_eqb_eq in E. contradiction.
    + rewrite IH. split.
      * intros H; constructor; [now apply str_eqb_neq | exact H].
      * intros H; now inversion H.
Qed.

End ResolverFacts.

(** C2.  For every normal form function, directory listing and requested
    name, [find_file_by_name] returns the first entry whose normal form is
    that of the requested name, and [None], a value, when no entry has it;
    so an entry stored under another spelling of the same normal form is
    resolved.  On the Hangul and ASCII repertoire, where [Hangul.nfc] and
    [Hangul.nfd] are NFC and NFD, a file stored under the decomposed form of
    the requested name is resolved. *)
Theorem find_file_by_name_first_match :
  forall (normalize : str -> str) (directory : list str) (target_name : str),
    match find_file_by_name normalize directory target_name with
    | Some file =>
        exists before after,
          directory = before ++ file :: after /\
          normalize file = normalize target_name /\
          Forall (fun f => normalize f <> normalize target_name) before
    | None =>
        Forall (fun f => normalize f <> normalize target_name) directory
    end
    /\ (forall stored,
          In stored directory ->
          normalize stored = normalize target_name ->
          exists file,
            find_file_by_name normalize directory target_name = Some file /\
            normalize file = normalize target_name)
    /\ (forallb Hangul.in_repertoire target_name = true ->
        In (Hangul.nfd target_name) directory ->
        exists file,
          find_file_by_name Hangul.nfc directory target_name = Some file /\
          Hangul.nfc file = Hangul.nfc target_name).
Proof.
  intros normalize directory target_name.
  assert (found : forall nf stored,
             In stored directory -> nf stored = nf target_name ->
             exists file, find_file_by_name nf directory target_name = Some file /\
                          nf file = nf target_name).
  { intros nf stored Hin Hs.
    destruct (find_file_by_name nf directory target_name) as [file|] eqn:F.
    - exists file; split; [reflexivity|].
      now destruct (find_file_by_name_some _ _ _ _ F) as (_ & _ & _ & H & _).
    - apply find_file_by_name_none in F.
      rewrite Forall_forall in F. now destruct (F stored Hin). }
  split; [|split].
  - destruct (find_file_by_name normalize directory target_name) as [file|] eqn:F.
    + now apply find_file_by_name_some.
    + now apply find_file_by_name_none.
  - apply found.
  - intros _ Hin. apply (found Hangul.nfc _ Hin), nfc_nfd.
Qed.

(* ------------------------------------------------------------------ *)
(** ** Orders on the two kinds of group key *)

Lemma str_compare_lt_trans (a b c : str) :
  str_compare a b = Lt -> str_compare b c = Lt -> str_compare a c = Lt.
Proof.
  revert b c; induction a as [|x a IH]; intros [|y b] [|z c]; simpl;
    try discriminate; try reflexivity.
  destruct (x ?= y)%N eqn:XY; try discriminate;
    destruct (y ?= z)%N eqn:YZ; try discriminate; intros H1 H2.
  - apply N.compare_eq in XY, YZ; subst. rewrite N.compare_refl. eauto.
  - apply N.compare_eq in XY; subst. now rewrite YZ.
  - apply N.compare_eq in YZ; subst. now rewrite XY.
  - now rewrite (N.lt_trans _ _ _ XY YZ : (x ?= z)%N = Lt).
Qed.

Lemma str_compare_gt_lt (a b : str) :
  str_compare a b = Gt -> str_compare b a = Lt.
Proof.
  revert b; induction a as [|x a IH]; intros [|y b]; simpl;
    try discriminate; try reflexivity.
  rewrite (N.compare_antisym x y).
  destruct (x ?= y)%N; simpl; try discriminate; auto.
Qed.

Lemma Qcompare_lt_trans (a b c : Q) :
  (a ?= b)%Q = Lt -> (b ?= c)%Q = Lt -> (a ?= c)%Q = Lt.
Proof. rewrite <- !Qlt_alt. apply Qlt_trans. Qed.

Lemma Qcompare_gt_lt (a b : Q) : (a ?= b)%Q = Gt -> (b ?= a)%Q = Lt.
Proof. rewrite <- Qgt_alt, <- Qlt_alt. auto. Qed.

(* ------------------------------------------------------------------ *)
(** ** Grouping *)

Section GroupbyFacts.

Variables K R : Type.
Variable cmp : K -> K -> comparison.
Variable key : R -> option K.

Hypothesis cmp_refl : forall a, cmp a a = Eq.
Hypothesis cmp_lt_trans :
  forall a b c, cmp a b = Lt -> cmp b c = Lt -> cmp a c = Lt.
Hypothesis cmp_gt_lt : forall a b, cmp a b = Gt -> cmp b a = Lt.

Let lt (a b : K) : Prop := cmp a b = Lt.

Lemma insert_key_Forall (P : K -> Prop) (k : K) (ks : list K) :
  P k -> Forall P ks -> Forall P (insert_key cmp k ks).
Proof.
  intros Hk; induction 1 as [|k' ks Hk' Hks IH]; simpl.
  - repeat constructor; assumption.
  - destruct (cmp k k'); repeat constructor; assumption.
Qed.

Lemma insert_key_sorted (k : K) (ks : list K) :
  StronglySorted lt ks -> StronglySorted lt (insert_key cmp k ks).
Proof.
  induction 1 as [|k' ks Hs IH Hall]; simpl.
  - repeat constructor.
  - destruct (cmp k k') eqn:C.
    + now constructor.
    + constructor; [now constructor|].
      constructor; [exact C|].
      eapply Forall_impl; [|exact Hall].
      intros c Hc. exact (cmp_lt_trans _ _ _ C Hc).
    + constructor; [exact IH|].
      apply insert_key_Forall; [|exact Hall].
      now apply cmp_gt_lt.
Qed.

Lemma insert_key_has (k : K) (ks : list K) :
  exists k', In k' (insert_key cmp k ks) /\ cmp k k' = Eq.
Proof.
  induction ks as [|c ks IH]; simpl.
  - exists k; auto.
  - destruct (cmp k c) eqn:C.
    + exists c; simpl; auto.
    + exists k; simpl; auto.
    + destruct IH as (k' & Hin & E). exists k'; simpl; auto.
Qed.

Lemma insert_key_keeps (k c : K) (ks : list K) :
  In c ks -> In c (insert_key cmp k ks).
Proof.
  induction ks as [|d ks IH]; simpl; [tauto|].
  destruct (cmp k d); simpl; tauto.
Qed.

Lemma insert_key_from (k c : K) (ks : list K) :
  In c (insert_key cmp k ks) -> c = k \/ In c ks.
Proof.
  induction ks as [|d ks IH]; simpl.
  - intros [<- | []]; auto.
  - destruct (cmp k d); simpl; intuition auto.
Qed.

Lemma fold_keys_sorted (rows : list R) (acc : list K) :
  StronglySorted lt acc -> StronglySorted lt (fold_left (key_step cmp key) rows acc).
Proof.
  revert acc; induction rows as [|r rows IH]; simpl; intros acc H; [exact H|].
  apply IH. unfold key_step. destruct (key r); [now apply insert_key_sorted | exact H].
Qed.

Lemma fold_keys_keeps (rows : list R) (acc : list K) (c : K) :
  In c acc -> In c (fold_left (key_step cmp key) rows acc).
Proof.
  revert acc; induction rows as [|r rows IH]; simpl; intros acc H; [exact H|].
  apply IH. unfold key_step. destruct (key r); [now apply insert_key_keeps | exact H].
Qed.

Lemma fold_keys_has (rows : list R) (acc : list K) (r : R) (k : K) :
  In r rows -> key r = Some k ->
  exists k', In k' (fold_left (key_step cmp key) rows acc) /\ cmp k k' = Eq.
Proof.
  revert acc; induction rows as [|r0 rows IH]; simpl; intros acc; [tauto|].
  intros [-> | Hin] Hk.
  - unfold key_step at 2. rewrite Hk.
    destruct (insert_key_has k acc) as (k' & Hk' & E).
    exists k'; split; [now apply fold_keys_keeps | exact E].
  - now apply IH.
Qed.

Lemma fold_keys_from (rows : list R) (acc : list K) (c : K) :
  In c (fold_left (key_step cmp key) rows acc) ->
  In c acc \/ exists r, In r rows /\ key r = Some c.
Proof.
  revert acc; induction rows as [|r rows IH]; simpl; intros acc H; [auto|].
  destruct (IH _ H) as [Hacc | (r' & Hr' & Hk)].
  - unfold key_step in Hacc. destruct (key r) as [k|] eqn:Kr; [|auto].
    destruct (insert_key_from _ _ _ Hacc) as [-> | Hc]; [|auto].
    right; exists r; auto.
  - right; exists r'; auto.
Qed.

Lemma groupby_sorted (rows : list R) :
  StronglySorted (fun a b => cmp (fst a) (fst b) = Lt) (groupby cmp key rows).
Proof.
  unfold groupby.
  assert (S : StronglySorted lt (group_keys cmp key rows))
    by (apply fold_keys_sorted; constructor).
  induction S as [|k ks Hs IH Hall]; simpl; constructor; [exact IH|].
  apply Forall_map. exact Hall.
Qed.

Lemma groupby_group (rows : list R) (k : K) (rs : list R) :
  In (k, rs) (groupby cmp key rows) ->
  rs = filter (in_group cmp key k) rows /\
  exists r, In r rs /\ key r = Some k.
Proof.
  unfold groupby. rewrite in_map_iff. intros (c & E & Hc).
  injection E as -> <-. split; [reflexivity|].
  destruct (fold_keys_from _ _ _ Hc) as [[] | (r & Hr & Hk)].
  exists r; split; [|exact Hk].
  apply filter_In; split; [exact Hr|].
  unfold in_group. now rewrite Hk, cmp_refl.
Qed.

Lemma groupby_has (rows : list R) (r : R) (k : K) :
  In r rows -> key r = Some k ->
  exists k', In (k', filter (in_group cmp key k') rows) (groupby cmp key rows) /\
             In r (filter (in_group cmp key k') rows) /\ cmp k k' = Eq.
Proof.
  intros Hr Hk.
  destruct (fold_keys_has rows [] r k Hr Hk) as (k' & Hin & E).
  exists k'; repeat split; [| |exact E].
  - unfold groupby. apply in_map_iff. exists k'; auto.
  - apply filter_In; split; [exact Hr|]. unfold in_group. now rewrite Hk, E.
Qed.

End GroupbyFacts.

(* ------------------------------------------------------------------ *)
(** ** Means and [idxmax] *)

Lemma mean_some (xs : list cell) (q : Q) :
  In (Some q) xs -> exists m, mean xs = Some m.
Proof.
  intros H. unfold mean.
  assert (P : In q (present xs)).
  { unfold present. apply in_flat_map. exists (Some q); simpl; auto. }
  destruct (present xs); [destruct P | eauto].
Qed.


Lemma cell_le_trans (u v : Q) (c : cell) : (u <= v)%Q -> cell_le u c -> cell_le v c.
Proof. destruct c; simpl; [|auto]. intros H1 H2. eapply Qle_trans; eauto. Qed.

Lemma cell_le_lt (u v : Q) (c : cell) : (u < v)%Q -> cell_le u c -> cell_lt v c.
Proof. destruct c; simpl; [|auto]. intros H1 H2. eapply Qle_lt_trans; eauto. Qed.

Lemma cell_lt_trans (u v : Q) (c : cell) : (u < v)%Q -> cell_lt u c -> cell_lt v c.
Proof. destruct c; simpl; [|auto]. intros H1 H2. eapply Qlt_trans; eauto. Qed.

Section IdxmaxFacts.

Variable L : Type.

Lemma idxmax_from_spec (s : list (L * cell)) :
  forall (b : L) (bv : Q),
    (idxmax_from b bv s = b /\ Forall (fun x => cell_le bv (snd x)) s)
    \/ exists before v after,
         s = before ++ (idxmax_from b bv s, Some v) :: after /\
         (bv < v)%Q /\
         Forall (fun x => cell_lt v (snd x)) before /\
         Forall (fun x => cell_le v (snd x)) after.
Proof.
  induction s as [|[l [v|]] s IH]; intros b bv; simpl.
  - left; split; [reflexivity | constructor].
  - destruct (bv ?= v)%Q eqn:C.
    + apply Qeq_alt in C.
      destruct (IH b bv) as [[E F] | (before & w & after & E & Hw & Hb & Ha)].
      * left; split; [exact E|]. constructor; [|exact F].
        simpl. rewrite C. apply Qle_refl.
      * right. exists ((l, Some v) :: before), w, after.
        repeat split; [simpl; now rewrite <- E | exact Hw | | exact Ha].
        constructor; [|exact Hb]. simpl. now rewrite <- C.
    + apply Qlt_alt in C.
      destruct (IH l v) as [[E F] | (before & w & after & E & Hw & Hb & Ha)].
      * right. exists [], v, s. rewrite E.
        repeat split; [exact C | constructor | exact F].
      * right. exists ((l, Some v) :: before), w, after.
        repeat split; [simpl; now rewrite <- E | | | exact Ha].
        -- eapply Qlt_trans; eauto.
        -- constructor; [exact Hw | exact Hb].
    + apply Qgt_alt in C.
      destruct (IH b bv) as [[E F] | (before & w & after & E & Hw & Hb & Ha)].
      * left; split; [exact E|]. constructor; [|exact F].
        simpl. now apply Qlt_le_weak.
      * right. exists ((l, Some v) :: before), w, after.
        repeat split; [simpl; now rewrite <- E | exact Hw | | exact Ha].
        constructor; [|exact Hb]. simpl. eapply Qlt_trans; eauto.
  - destruct (IH b bv) as [[E F] | (before & w & after & E & Hw & Hb & Ha)].
    + left; split; [exact E|]. constructor; [exact I | exact F].
    + right. exists ((l, None) :: before), w, after.
      repeat split; [simpl; now rewrite <- E | exact Hw | | exact Ha].
      constructor; [exact I | exact Hb].
Qed.

(** [idxmax] picks the first of the largest values. *)
Lemma idxmax_some (s : list (L * cell)) (l : L) :
  idxmax s = Some l ->
  exists before v after,
    s = before ++ (l, Some v) :: after /\
    Forall (fun x => cell_lt v (snd x)) before /\
    Forall (fun x => cell_le v (snd x)) after.
Proof.
  induction s as [|[l0 [v|]] s IH]; simpl; [discriminate| |].
  - intros H; injection H as <-.
    destruct (idxmax_from_spec s l0 v)
      as [[E F] | (before & w & after & E & Hw & Hb & Ha)].
    + exists [], v, s. rewrite E. repeat split; [constructor | exact F].
    + exists ((l0, Some v) :: before), w, after.
      repeat split; [simpl; now rewrite <- E | | exact Ha].
      constructor; [exact Hw | exact Hb].
  - intros H. destruct (IH H) as (before & w & after & -> & Hb & Ha).
    exists ((l0, None) :: before), w, after.
    repeat split; [|exact Ha]. constructor; [exact I | exact Hb].
Qed.

Lemma idxmax_none (s : list (L * cell)) :
  idxmax s = None <-> Forall (fun x => snd x = None) s.
Proof.
  induction s as [|[l [v|]] s IH]; simpl.
  - split; [constructor | reflexivity].
  - split; [discriminate | intros H; inversion H; discriminate].
  - rewrite IH. split; [now constructor | intros H; now inversion H].
Qed.

Lemma idxmax_from_map (M : Type) (f : L -> M) (s : list (L * cell)) :
  forall b bv,
    idxmax_from (f b) bv (map (fun x => (f (fst x), snd x)) s)
    = f (idxmax_from b bv s).
Proof.
  induction s as [|[l [v|]] s IH]; intros b bv; simpl; auto.
  destruct (bv ?= v)%Q; auto.
Qed.

(** Relabelling a series relabels its [idxmax]. *)
Lemma idxmax_map (M : Type) (f : L -> M) (s : list (L * cell)) :
  idxmax (map (fun x => (f (fst x), snd x)) s) = option_map f (idxmax s).
Proof.
  induction s as [|[l [v|]] s IH]; simpl; auto.
  now rewrite idxmax_from_map.
Qed.

End IdxmaxFacts.

(* ------------------------------------------------------------------ *)
(** ** The two "best EC" computations *)

Lemma combine_seq_snd (A : Type) (s : list A) (a : nat) :
  map snd (combine (seq a (length s)) s) = s.
Proof.
  revert a; induction s as [|x s IH]; intros a; simpl; [reflexivity|].
  now rewrite IH.
Qed.

Lemma combine_seq_fst (A : Type) (s : list A) (a : nat) :
  map fst (combine (seq a (length s)) s) = seq a (length s).
Proof.
  revert a; induction s as [|x s IH]; intros a; simpl; [reflexivity|].
  now rewrite IH.
Qed.

Lemma loc_In (A B : Type) (df : list (nat * A)) (i : nat) (r : A) (f : A -> B) :
  NoDup (map fst df) -> In (i, r) df -> loc df i f = Some (f r).
Proof.
  induction df as [|[j x] df IH]; simpl; [tauto|].
  intros N [E | Hin]; inversion N as [|? ? Hj N']; subst.
  - injection E as -> ->. now rewrite Nat.eqb_refl.
  - destruct (Nat.eqb_spec j i) as [-> | _]; [|now apply IH].
    exfalso; apply Hj. apply in_map_iff. exists (i, r); auto.
Qed.

(** Taking [idxmax] of the value column of the frame [reset_index] builds and
    reading the key column at that row gives the [idxmax] of the series. *)
Lemma idxmax_reset_index (A : Type) (s : list (A * cell)) :
  match idxmax (column snd (reset_index s)) with
  | Some i => loc (reset_index s) i fst
  | None => None
  end = idxmax s.
Proof.
  set (df := reset_index s).
  set (both := map (fun r : nat * (A * cell) =>
                      ((fst r, fst (snd r)), snd (snd r))) df).
  assert (E1 : column snd df = map (fun x => (fst (fst x), snd x)) both).
  { unfold column, both. rewrite map_map. reflexivity. }
  assert (E2 : s = map (fun x => (snd (fst x), snd x)) both).
  { unfold both, df, reset_index. rewrite map_map.
    rewrite <- (combine_seq_snd _ s 0) at 1.
    apply map_ext. intros [i [k v]]; reflexivity. }
  assert (E3 : idxmax s = option_map snd (idxmax both)).
  { rewrite <- idxmax_map. now rewrite <- E2. }
  rewrite E1, idxmax_map, E3.
  destruct (idxmax both) as [[i k]|] eqn:I; simpl; [|reflexivity].
  destruct (idxmax_some _ _ _ I) as (before & v & after & E & _).
  assert (Hin : In (i, (k, Some v)) df).
  { assert (H : In ((i, k), Some v) both) by (rewrite E; apply in_elt).
    unfold both in H. apply in_map_iff in H.
    destruct H as ([j [k' v']] & Hj & Hin). simpl in Hj.
    now injection Hj as -> -> ->. }
  apply (loc_In _ _ df i (k, Some v) fst); [|exact Hin].
  unfold df, reset_index. rewrite combine_seq_fst. apply seq_NoDup.
Qed.

Lemma StronglySorted_map (A B : Type) (f : A -> B) (P : B -> B -> Prop) (l : list A) :
  StronglySorted (fun a b => P (f a) (f b)) l -> StronglySorted P (map f l).
Proof.
  induction 1 as [|a l Hs IH Hall]; simpl; constructor; [exact IH|].
  apply Forall_map. exact Hall.
Qed.

Lemma StronglySorted_weaken (A : Type) (P P' : A -> A -> Prop) (l : list A) :
  (forall a b, P a b -> P' a b) -> StronglySorted P l -> StronglySorted P' l.
Proof.
  intros W; induction 1 as [|a l Hs IH Hall]; constructor; [exact IH|].
  eapply Forall_impl; [|exact Hall]. intros b; apply W.
Qed.

Lemma Qcompare_refl' (a : Q) : (a ?= a)%Q = Eq.
Proof. apply Qeq_alt. apply Qeq_refl. Qed.

Lemma mean_keeps_values : keeps_values mean.
Proof.
  intros xs q Hin. destruct (mean_some xs q Hin) as (m & ->). discriminate.
Qed.

Lemma group_mean_by_EC_sorted (reduce : list cell -> cell)
    (col : GrowthRow -> cell) (growth_all : list GrowthRow) :
  StronglySorted (fun a b => (fst a < fst b)%Q)
                 (group_mean_by_EC reduce col growth_all).
Proof.
  unfold group_mean_by_EC. apply StronglySorted_map. simpl.
  eapply StronglySorted_weaken; [|apply groupby_sorted].
  - intros a b H. apply Qlt_alt. exact H.
  - exact Qcompare_lt_trans.
  - exact Qcompare_gt_lt.
Qed.

(** The entry of a group is the reduction of the rows with the group's EC. *)
Lemma group_mean_by_EC_entry (reduce : list cell -> cell)
    (col : GrowthRow -> cell) (growth_all : list GrowthRow) (k : Q) (c : cell) :
  In (k, c) (group_mean_by_EC reduce col growth_all) ->
  c = reduce (map col (filter (in_group Qcompare EC k) growth_all)).
Proof.
  unfold group_mean_by_EC. rewrite in_map_iff. intros ([k' rs] & E & Hin).
  simpl in E. injection E as -> <-.
  now destruct (groupby_group _ _ Qcompare EC Qcompare_refl' _ _ _ Hin) as [-> _].
Qed.

Lemma group_mean_by_EC_defined (reduce : list cell -> cell)
    (growth_all : list GrowthRow) (r : GrowthRow) :
  keeps_values reduce ->
  In r growth_all -> EC r <> None -> growth_weight r <> None ->
  exists k m, In (k, Some m) (group_mean_by_EC reduce growth_weight growth_all).
Proof.
  intros Hred Hr He Hw.
  destruct (EC r) as [k|] eqn:Ek; [clear He | congruence].
  destruct (growth_weight r) as [w|] eqn:Ew; [clear Hw | congruence].
  destruct (groupby_has _ _ Qcompare EC Qcompare_refl' growth_all r k Hr Ek)
    as (k' & Hg & Hin & _).
  destruct (reduce (map growth_weight
                        (filter (in_group Qcompare EC k') growth_all)))
    as [m|] eqn:Hm.
  - exists k', m. unfold group_mean_by_EC. apply in_map_iff.
    eexists; split; [|exact Hg]. simpl. now rewrite Hm.
  - exfalso. refine (Hred _ w _ Hm). rewrite <- Ew. now apply in_map.
Qed.

Lemma mean_by_EC_defined (growth_all : list GrowthRow) (r : GrowthRow) :
  In r growth_all -> EC r <> None -> growth_weight r <> None ->
  exists k m, In (k, Some m) (mean_by_EC growth_weight growth_all).
Proof. apply group_mean_by_EC_defined. exact mean_keeps_values. Qed.



Lemma idxmax_outcome_eq (L : Type) (s : list (L * cell)) :
  idxmax_outcome s =
  match idxmax s with
  | Some l => Label l
  | None => match s with [] => EmptySeries | _ :: _ => AllMissing end
  end.
Proof.
  destruct s as [|x s]; [reflexivity|].
  unfold idxmax_outcome. destruct (idxmax (x :: s)); reflexivity.
Qed.

(** The value column of the frame [reset_index] builds has a value exactly
    when the series has one. *)
Lemma idxmax_column_reset_index_none (A : Type) (s : list (A * cell)) :
  idxmax (column snd (reset_index s)) = None <-> idxmax s = None.
Proof.
  rewrite !idxmax_none.
  rewrite <- (Forall_map snd (fun c : cell => c = None)
                (column snd (reset_index s))).
  rewrite <- (Forall_map snd (fun c : cell => c = None) s).
  replace (map snd (column snd (reset_index s))) with (map snd s); [tauto|].
  unfold column, reset_index. rewrite map_map. simpl.
  rewrite <- (combine_seq_snd _ s 0) at 1. rewrite map_map. reflexivity.
Qed.

(** Lines 221-222 in terms of the series of group means: the row lookup
    returns the label [idxmax] of the series returns, and differs from
    line 142 only on a series with entries and no value before pandas 3.0. *)
Lemma results_best_ec_outcome (reduce : list cell -> cell)
    (before_pandas_3 : bool) (growth_all : list GrowthRow) :
  results_best_ec reduce before_pandas_3 growth_all =
  match idxmax_outcome (group_mean_by_EC reduce growth_weight growth_all) with
  | Label ec => Level ec
  | EmptySeries => Fails ValueError
  | AllMissing => if before_pandas_3 then Fails KeyError else Fails ValueError
  end.
Proof.
  unfold results_best_ec.
  set (s := group_mean_by_EC reduce growth_weight growth_all). clearbody s.
  cbv zeta. rewrite !idxmax_outcome_eq.
  pose proof (idxmax_reset_index _ s) as H.
  pose proof (idxmax_column_reset_index_none _ s) as N.
  destruct (idxmax (column snd (reset_index s))) as [i|] eqn:I.
  - destruct (idxmax s) as [ec|] eqn:B.
    + now rewrite H.
    + destruct N as [_ N]. specialize (N eq_refl). discriminate.
  - rewrite <- H. destruct s; reflexivity.
Qed.

(** With a group that has a mean, both computations return the label
    [idxmax] gives for the series of group means. *)
Lemma best_ec_level (reduce : list cell -> cell) (before_pandas_3 : bool)
    (growth_all : list GrowthRow) (k : Q) (m : Q) :
  In (k, Some m) (group_mean_by_EC reduce growth_weight growth_all) ->
  exists ec,
    idxmax (group_mean_by_EC reduce growth_weight growth_all) = Some ec /\
    overview_best_ec reduce before_pandas_3 growth_all = Level ec /\
    results_best_ec reduce before_pandas_3 growth_all = Level ec.
Proof.
  intros Hin. rewrite results_best_ec_outcome. unfold overview_best_ec.
  rewrite idxmax_outcome_eq.
  destruct (idxmax (group_mean_by_EC reduce growth_weight growth_all))
    as [ec|] eqn:B.
  - exists ec; auto.
  - exfalso. apply idxmax_none in B. rewrite Forall_forall in B.
    specialize (B _ Hin). discriminate.
Qed.

(** The option-valued forms the script runs with are the outcomes for the
    exact mean, an EC level or none. *)
Lemma best_ec_overview_level (before_pandas_3 : bool)
    (growth_all : list GrowthRow) (ec : Q) :
  best_ec_overview growth_all = Some ec <->
  overview_best_ec mean before_pandas_3 growth_all = Level ec.
Proof.
  unfold best_ec_overview, overview_best_ec, mean_by_EC.
  rewrite idxmax_outcome_eq.
  destruct (idxmax (group_mean_by_EC mean growth_weight growth_all)).
  - split; congruence.
  - destruct (group_mean_by_EC mean growth_weight growth_all);
      destruct before_pandas_3; split; discriminate.
Qed.

Lemma best_ec_results_overview (growth_all : list GrowthRow) :
  best_ec_results growth_all = best_ec_overview growth_all.
Proof.
  unfold best_ec_results, best_ec_overview, mean_weight.
  apply idxmax_reset_index.
Qed.

Lemma best_ec_results_level (before_pandas_3 : bool)
    (growth_all : list GrowthRow) (ec : Q) :
  best_ec_results growth_all = Some ec <->
  results_best_ec mean before_pandas_3 growth_all = Level ec.
Proof.
  rewrite best_ec_results_overview, results_best_ec_outcome.
  unfold best_ec_overview, mean_by_EC. rewrite idxmax_outcome_eq.
  destruct (idxmax (group_mean_by_EC mean growth_weight growth_all)).
  - split; congruence.
  - destruct (group_mean_by_EC mean growth_weight growth_all);
      destruct before_pandas_3; split; discriminate.
Qed.

(** Where the runs of the script raise [ValueError] for want of a best EC,
    lines 142 and 222 raise it with the [idxmax] of pandas 3.0. *)
Lemma best_ec_none_raises (growth_all : list GrowthRow) :
  (best_ec_overview growth_all = None <->
   overview_best_ec mean false growth_all = Fails ValueError) /\
  (best_ec_results growth_all = None <->
   results_best_ec mean false growth_all = Fails ValueError).
Proof.
  rewrite best_ec_results_overview, results_best_ec_outcome.
  unfold best_ec_overview, overview_best_ec, mean_by_EC.
  rewrite idxmax_outcome_eq.
  destruct (idxmax (group_mean_by_EC mean growth_weight growth_all)).
  - repeat split; discriminate.
  - destruct (group_mean_by_EC mean growth_weight growth_all);
      repeat split; reflexivity.
Qed.

(** With a row whose EC and fresh weight are present, both computations
    return the first EC level whose computed group mean is the largest. *)
Lemma best_ec_is_first_maximal_mean (reduce : list cell -> cell)
    (before_pandas_3 : bool) (growth_all : list GrowthRow) :
  keeps_values reduce ->
  (exists r, In r growth_all /\ EC r <> None /\ growth_weight r <> None) ->
  exists ec,
    overview_best_ec reduce before_pandas_3 growth_all = Level ec /\
    results_best_ec reduce before_pandas_3 growth_all = Level ec /\
    first_maximal_mean reduce growth_all ec.
Proof.
  intros Hred (r & Hr & He & Hw).
  destruct (group_mean_by_EC_defined reduce growth_all r Hred Hr He Hw)
    as (k & m0 & Hin).
  destruct (best_ec_level reduce before_pandas_3 growth_all k m0 Hin)
    as (ec & B & Ho & Hres).
  exists ec. split; [exact Ho | split; [exact Hres|]].
  destruct (idxmax_some _ _ _ B) as (before & m & after & E & Hb & Ha).
  exists m, before, after. repeat split; auto.
  - symmetry.
    apply (group_mean_by_EC_entry reduce growth_weight growth_all ec (Some m)).
    rewrite E. apply in_elt.
  - apply group_mean_by_EC_sorted.
Qed.



(** C1.  For the growth rows (EC 1.0, weight 2), (EC 1.0, weight 4),
    (EC 2.0, weight 10), whatever their schools, the mean fresh weight by EC
    is 3.0 for EC 1.0 and 10.0 for EC 2.0, and the best EC of the overview
    and of the results tab is 2.0. *)
Theorem aggregation_example :
  forall s1 s2 s3 : str,
    let growth_all := [growth_row s1 (Some 1%Q) (Some 2%Q);
                       growth_row s2 (Some 1%Q) (Some 4%Q);
                       growth_row s3 (Some 2%Q) (Some 10%Q)] in
    mean_by_EC growth_weight growth_all = [(1%Q, Some 3%Q); (2%Q, Some 10%Q)]
    /\ best_ec_overview growth_all = Some 2%Q
    /\ best_ec_results growth_all = Some 2%Q.
Proof. intros s1 s2 s3. repeat split; reflexivity. Qed.

(** C5, for tables with a group mean.  For every growth table with at least
    one row whose EC and fresh weight are both present, whatever the group
    means are computed to (as long as a group with a weight has a mean) and
    whichever pandas runs, the best EC (overview and results tab) is an EC
    level whose group mean, the computed mean fresh weight of the rows with
    that EC, is the largest of the computed group means: every group before
    it in ascending EC order has a smaller mean (or none), every group after
    it a mean no larger (or none). *)
Theorem best_ec_first_maximal_mean :
  forall (reduce : list cell -> cell) (before_pandas_3 : bool)
         (growth_all : list GrowthRow),
    keeps_values reduce ->
    (exists r, In r growth_all /\ EC r <> None /\ growth_weight r <> None) ->
    exists ec,
      overview_best_ec reduce before_pandas_3 growth_all = Level ec /\
      results_best_ec reduce before_pandas_3 growth_all = Level ec /\
      first_maximal_mean reduce growth_all ec.
Proof. exact best_ec_is_first_maximal_mean. Qed.

(** A tie: EC 1.0 and EC 2.0 both have mean 5, and 1.0, the first in
    ascending order, is the best EC. *)
Lemma best_ec_first_maximal_mean_tie :
  exists ec,
    overview_best_ec mean false
      [growth_row haneul (Some 2%Q) (Some 5%Q);
       growth_row songdo (Some 1%Q) (Some 5%Q)] = Level ec /\
    results_best_ec mean false
      [growth_row haneul (Some 2%Q) (Some 5%Q);
       growth_row songdo (Some 1%Q) (Some 5%Q)] = Level ec /\
    first_maximal_mean mean
      [growth_row haneul (Some 2%Q) (Some 5%Q);
       growth_row songdo (Some 1%Q) (Some 5%Q)] ec.
Proof.
  apply (best_ec_first_maximal_mean mean false
           [growth_row haneul (Some 2%Q) (Some 5%Q);
            growth_row songdo (Some 1%Q) (Some 5%Q)]).
  - exact mean_keeps_values.
  - exists (growth_row songdo (Some 1%Q) (Some 5%Q)).
    split; [simpl; auto | split; discriminate].
Defined.

(** C5 does not extend to every non-empty table: a workbook whose four school
    sheets are empty and whose fifth sheet, not a school, has one row loads
    to a growth table that is not empty and has no EC group; there is no
    best EC, [idxmax] raises [ValueError] in every pandas, and the run ends
    in that error. *)
Lemma best_ec_undefined_without_ec_group :
  let fs := sample_fs full_listing
              [(songdo, []); (haneul, []); (ara, []); (dongsan, []);
               (other_sheet, [raw_weight (Some 5%Q)])] in
  let growth_all := [growth_row other_sheet None (Some 5%Q)] in
  growth_all <> []
  /\ (exists data,
         fst (load_growth_data Hangul.nfc fs init_state) = Value (Some data)
         /\ concat (dict_values data) = growth_all)
  /\ best_ec_overview growth_all = None
  /\ best_ec_results growth_all = None
  /\ overview_best_ec mean true growth_all = Fails ValueError
  /\ overview_best_ec mean false growth_all = Fails ValueError
  /\ results_best_ec mean true growth_all = Fails ValueError
  /\ results_best_ec mean false growth_all = Fails ValueError
  /\ fst (dashboard Hangul.nfc fs all_schools init_state) = Raised ValueError.
Proof.
  repeat split; try discriminate; try reflexivity.
  eexists; split; reflexivity.
Qed.

(** Rounding can make a tie: the exact mean of the binary64 numbers 0.1 and
    0.5 lies above the binary64 number 0.3 and rounds to it.  With that mean
    for EC 2.0 and the weight 0.3 for EC 1.0 the computed group means tie and
    the best EC is 1.0, the first of the two, where the exact means give
    2.0. *)
Example best_ec_rounded_tie :
  let growth_all := [growth_row songdo (Some 1%Q) (Some double_0_3);
                     growth_row haneul (Some 2%Q) (Some double_0_1);
                     growth_row haneul (Some 2%Q) (Some double_0_5)] in
  group_mean_by_EC rounding_mean growth_weight growth_all
  = [(1%Q, Some double_0_3); (2%Q, Some double_0_3)]
  /\ overview_best_ec rounding_mean false growth_all = Level 1%Q
  /\ results_best_ec rounding_mean false growth_all = Level 1%Q
  /\ overview_best_ec mean false growth_all = Level 2%Q.
Proof. vm_compute. repeat split; reflexivity. Qed.

Lemma rounding_mean_keeps_values : keeps_values rounding_mean.
Proof.
  intros xs q Hin. unfold rounding_mean.
  pose proof (mean_keeps_values xs q Hin) as M.
  destruct xs as [|[a|] [|[b|] [|c xs]]]; try exact M.
  destruct (Qeq_bool a double_0_1 && Qeq_bool b double_0_5);
    [discriminate | exact M].
Qed.

(** The environment file of the first school, stored under its decomposed
    name, is resolved for the composed name the loader asks for. *)
Lemma find_file_by_name_decomposed :
  exists file,
    find_file_by_name Hangul.nfc
      [env_filename haneul; Hangul.nfd (env_filename songdo)]
      (env_filename songdo) = Some file
    /\ Hangul.nfc file = Hangul.nfc (env_filename songdo).
Proof.
  apply (proj2 (proj2 (find_file_by_name_first_match
                         Hangul.nfc
                         [env_filename haneul; Hangul.nfd (env_filename songdo)]
                         (env_filename songdo)))).
  - reflexivity.
  - right; left; reflexivity.
Defined.

(* ------------------------------------------------------------------ *)
(** ** Dictionaries *)

Lemma dict_get_set (V : Type) (d : dict V) (k k' : str) (v : V) :
  dict_get (dict_set d k v) k' = if str_eqb k k' then Some v else dict_get d k'.
Proof.
  induction d as [|[k0 v0] d IH]; simpl; [reflexivity|].
  destruct (str_eqb k0 k) eqn:E0; simpl.
  - apply str_eqb_eq in E0; subst k0. now destruct (str_eqb k k').
  - rewrite IH. destruct (str_eqb k0 k') eqn:E1; [|reflexivity].
    apply str_eqb_eq in E1; subst k0.
    destruct (str_eqb k k') eqn:E2; [|reflexivity].
    apply str_eqb_eq in E2; subst k. rewrite str_eqb_refl in E0. discriminate.
Qed.

Lemma dict_get_In (V : Type) (d : dict V) (k : str) (v : V) :
  dict_get d k = Some v -> In (k, v) d.
Proof.
  induction d as [|[k0 v0] d IH]; simpl; [discriminate|].
  destruct (str_eqb k0 k) eqn:E.
  - apply str_eqb_eq in E; subst. intros H; injection H as ->. now left.
  - auto.
Qed.

Lemma dict_get_keys (V : Type) (d : dict V) (k : str) :
  In k (dict_keys d) <-> dict_get d k <> None.
Proof.
  induction d as [|[k0 v0] d IH]; simpl; [tauto|].
  destruct (str_eqb k0 k) eqn:E.
  - apply str_eqb_eq in E. split; [discriminate | auto].
  - apply str_eqb_neq in E. rewrite <- IH. tauto.
Qed.

Lemma dict_set_Forall (V : Type) (P : str * V -> Prop) (d : dict V) (k : str) (v : V) :
  Forall P d -> P (k, v) -> Forall P (dict_set d k v).
Proof.
  intros H Hk. induction H as [|[k0 v0] d H0 Hd IH]; simpl.
  - repeat constructor; exact Hk.
  - destruct (str_eqb k0 k) eqn:E; constructor; auto.
    apply str_eqb_eq in E; now subst.
Qed.

(* ------------------------------------------------------------------ *)
(** ** Running computations *)

Lemma bind_value (A B : Type) (c : M A) (k : A -> M B) (s s' : State) (a : A) :
  c s = (Value a, s') -> bind c k s = k a s'.
Proof. intros H. unfold bind. now rewrite H. Qed.

Lemma extend_assoc (s d e : State) :
  extend (extend s d) e = extend s (extend d e).
Proof. unfold extend; simpl. now rewrite !app_assoc. Qed.

Lemma extend_delta_nil (s : State) : extend s (delta [] []) = s.
Proof. destruct s; unfold extend; simpl. now rewrite !app_nil_r. Qed.

Lemma with_ui_extend (s d : State) :
  with_ui (extend (with_ui s []) d) (ui s ++ ui d) = extend s d.
Proof. reflexivity. Qed.

Lemma framed_ret (A : Type) (a : A) : framed (ret a).
Proof. intros s. unfold ret; simpl. now rewrite extend_delta_nil. Qed.

Lemma framed_stop (A : Type) : framed (@stop A).
Proof. intros s. unfold stop; simpl. now rewrite extend_delta_nil. Qed.

Lemma framed_raise (A : Type) (e : Exn) : framed (@raise A e).
Proof. intros s. unfold raise; simpl. now rewrite extend_delta_nil. Qed.

Lemma framed_emit (e : Event) : framed (emit e).
Proof. intros s. unfold emit, extend; simpl. now rewrite app_nil_r. Qed.

Lemma framed_emit_all (es : list Event) : framed (emit_all es).
Proof. intros s. unfold emit_all, extend; simpl. now rewrite app_nil_r. Qed.

Lemma framed_io (x : IO) : framed (io x).
Proof. intros s. unfold io, extend; simpl. now rewrite app_nil_r. Qed.

Lemma framed_bind (A B : Type) (c : M A) (k : A -> M B) :
  framed c -> (forall a, framed (k a)) -> framed (bind c k).
Proof.
  intros Hc Hk s. unfold bind. rewrite (Hc s).
  destruct (c init_state) as [[a| |e] d]; simpl; try reflexivity.
  rewrite (Hk a (extend s d)), (Hk a d); simpl.
  now rewrite extend_assoc.
Qed.

Lemma framed_getitem (V : Type) (d : dict V) (k : str) : framed (getitem d k).
Proof.
  unfold getitem. destruct (dict_get d k); [apply framed_ret | apply framed_raise].
Qed.

Lemma framed_mapM (A B : Type) (f : A -> M B) (l : list A) :
  (forall a, framed (f a)) -> framed (mapM f l).
Proof.
  intros Hf. induction l as [|a l IH]; simpl; [apply framed_ret|].
  apply framed_bind; [apply Hf|]. intros b.
  apply framed_bind; [exact IH|]. intros bs. apply framed_ret.
Qed.

Lemma emits_ret (A : Type) (P : Event -> Prop) (a : A) : emits P (ret a).
Proof.
  intros s. exists (Value a), []. split; [|constructor].
  unfold ret, with_ui. rewrite app_nil_r. now destruct s.
Qed.

Lemma emits_stop (A : Type) (P : Event -> Prop) : emits P (@stop A).
Proof.
  intros s. exists Stopped, []. split; [|constructor].
  unfold stop, with_ui. rewrite app_nil_r. now destruct s.
Qed.

Lemma emits_raise (A : Type) (P : Event -> Prop) (e : Exn) : emits P (@raise A e).
Proof.
  intros s. exists (Raised e), []. split; [|constructor].
  unfold raise, with_ui. rewrite app_nil_r. now destruct s.
Qed.

Lemma emits_emit (P : Event -> Prop) (e : Event) : P e -> emits P (emit e).
Proof. intros H s. exists (Value tt), [e]. split; [reflexivity | now constructor]. Qed.

Lemma emits_emit_all (P : Event -> Prop) (es : list Event) :
  Forall P es -> emits P (emit_all es).
Proof. intros H s. exists (Value tt), es. split; [reflexivity | exact H]. Qed.

Lemma emits_bind (A B : Type) (P : Event -> Prop) (c : M A) (k : A -> M B) :
  emits P c -> (forall a, emits P (k a)) -> emits P (bind c k).
Proof.
  intros Hc Hk s. unfold bind.
  destruct (Hc s) as (o & es & E & F). rewrite E.
  destruct o as [a| |e]; [|exists Stopped, es; auto | exists (Raised e), es; auto].
  destruct (Hk a (with_ui s (ui s ++ es))) as (o' & es' & E' & F').
  exists o', (es ++ es'). split; [|now apply Forall_app].
  rewrite E'. unfold with_ui; simpl. now rewrite app_assoc.
Qed.

Lemma emits_getitem (V : Type) (P : Event -> Prop) (d : dict V) (k : str) :
  emits P (getitem d k).
Proof.
  unfold getitem. destruct (dict_get d k); [apply emits_ret | apply emits_raise].
Qed.

Lemma emits_mapM (A B : Type) (P : Event -> Prop) (f : A -> M B) (l : list A) :
  (forall a, emits P (f a)) -> emits P (mapM f l).
Proof.
  intros Hf. induction l as [|a l IH]; simpl; [apply emits_ret|].
  apply emits_bind; [apply Hf|]. intros b.
  apply emits_bind; [exact IH|]. intros bs. apply emits_ret.
Qed.

Ltac emits_tac :=
  repeat first
    [ apply emits_bind; [|intros ?]
    | apply emits_ret | apply emits_stop | apply emits_raise
    | apply emits_getitem
    | apply emits_emit
    | apply emits_emit_all
    | progress cbv zeta
    | match goal with
      | |- emits _ (match ?x with _ => _ end) => destruct x
      end ].

(* ------------------------------------------------------------------ *)
(** ** The loader bodies *)

Section LoaderFacts.

Variable normalize : str -> str.
Variable fs : FileSystem.

Local Abbreviation resolved name :=
  (find_file_by_name normalize (listing fs) name) (only parsing).

Lemma extend_delta (s : State) (r1 r2 : list IO) (e1 e2 : list Event) :
  extend (extend s (delta r1 e1)) (delta r2 e2) = extend s (delta (r1 ++ r2) (e1 ++ e2)).
Proof. unfold extend, delta; simpl. now rewrite !app_assoc. Qed.

Lemma resolve_run (name : str) (s : State) :
  resolve normalize fs name s = (Value (resolved name), extend s (delta [IterDir] [])).
Proof.
  unfold resolve, bind, io, ret, extend; simpl. now rewrite app_nil_r.
Qed.

(** The environment loop when some file of [schools] is not resolved: it
    returns [None] and draws one error, naming the first such file. *)
Lemma load_environment_loop_missing (schools : list str) :
  (exists school, In school schools /\ resolved (env_filename school) = None) ->
  exists before missing after reads,
    schools = before ++ missing :: after /\
    Forall (fun school => resolved (env_filename school) <> None) before /\
    resolved (env_filename missing) = None /\
    forall data s,
      load_environment_loop normalize fs schools data s
      = (Value None,
         extend s (delta reads [Error (env_error_prefix ++ env_filename missing)])).
Proof.
  induction schools as [|school rest IH]; intros (x & Hx & Hnone); [destruct Hx|].
  destruct (resolved (env_filename school)) as [p|] eqn:F.
  - destruct IH as (before & missing & after & reads & -> & Hb & Hm & Hrun).
    { destruct Hx as [-> | Hx]; [congruence | eauto]. }
    exists (school :: before), missing, after, ([IterDir; ReadCsv p] ++ reads).
    repeat split; [constructor; [congruence | exact Hb] | exact Hm |].
    intros data s. simpl.
    rewrite (bind_value _ _ _ _ _ _ _ (resolve_run _ s)). rewrite F.
    unfold bind at 1, io at 1; simpl. rewrite Hrun.
    unfold extend, delta; simpl. now rewrite !app_nil_r, <- !app_assoc.
  - exists [], school, rest, [IterDir].
    repeat split; [constructor | exact F |].
    intros data s. simpl.
    rewrite (bind_value _ _ _ _ _ _ _ (resolve_run _ s)). rewrite F.
    unfold bind, emit, ret, extend, delta; simpl. now rewrite !app_nil_r.
Qed.

(** The environment loop when every file of [schools] is resolved: it
    returns a mapping and draws nothing. *)
Lemma load_environment_loop_found (schools : list str) :
  Forall (fun school => resolved (env_filename school) <> None) schools ->
  forall data, exists data' reads,
    forall s,
      load_environment_loop normalize fs schools data s
      = (Value (Some data'), extend s (delta reads [])).
Proof.
  induction 1 as [|school rest Hs Hr IH]; intros data.
  - exists data, []. intros s. simpl. unfold ret. now rewrite extend_delta_nil.
  - destruct (resolved (env_filename school)) as [p|] eqn:F; [|congruence].
    destruct (IH (dict_set data school (tag_env school (read_csv fs p))))
      as (data' & reads & Hrun).
    exists data', ([IterDir; ReadCsv p] ++ reads). intros s. simpl.
    rewrite (bind_value _ _ _ _ _ _ _ (resolve_run _ s)). rewrite F.
    unfold bind at 1, io at 1; simpl. rewrite Hrun.
    unfold extend, delta; simpl. now rewrite !app_nil_r, <- !app_assoc.
Qed.

Lemma Forall_dec_resolved (schools : list str) :
  Forall (fun school => resolved (env_filename school) <> None) schools
  \/ exists school, In school schools /\ resolved (env_filename school) = None.
Proof.
  induction schools as [|school rest [IH | (x & Hx & Hn)]].
  - left; constructor.
  - destruct (resolved (env_filename school)) eqn:F.
    + left; constructor; [congruence | exact IH].
    + right; exists school; simpl; auto.
  - right; exists x; simpl; auto.
Qed.

(** The body of the environment loader returns a value, missing file or
    not, and does the same reads and drawing in every state. *)
Lemma load_environment_body_run :
  exists v d, forall s, load_environment_body normalize fs s = (Value v, extend s d).
Proof.
  unfold load_environment_body.
  destruct (Forall_dec_resolved (dict_keys EC_INFO)) as [H | H].
  - destruct (load_environment_loop_found _ H []) as (data & reads & Hrun).
    now exists (Some data), (delta reads []).
  - destruct (load_environment_loop_missing _ H)
      as (_ & missing & _ & reads & _ & _ & _ & Hrun).
    exists None. eexists. intros s. apply Hrun.
Qed.

(** The body of the growth loader, by whether the spreadsheet is resolved. *)
Lemma load_growth_body_run (s : State) :
  load_growth_body normalize fs s
  = match resolved xlsx_name with
    | None => (Value None, extend s (delta [IterDir] [Error growth_error]))
    | Some p =>
        (Value (Some (load_growth_loop (excel_sheets fs p)
                                       (dict_keys (excel_sheets fs p)) [])),
         extend s (delta [IterDir; OpenExcel p] []))
    end.
Proof.
  unfold load_growth_body.
  rewrite (bind_value _ _ _ _ _ _ _ (resolve_run _ s)). 
  destruct (resolved xlsx_name); unfold bind, emit, io, ret, extend, delta; simpl;
    now rewrite ?app_nil_r, <- ?app_assoc.
Qed.

Lemma load_growth_body_value :
  exists v d, forall s, load_growth_body normalize fs s = (Value v, extend s d).
Proof.
  destruct (resolved xlsx_name) as [p|] eqn:F.
  - do 2 eexists. intros s. rewrite load_growth_body_run. rewrite F.
    reflexivity.
  - do 2 eexists. intros s. rewrite load_growth_body_run. rewrite F.
    reflexivity.
Qed.

End LoaderFacts.

(* ------------------------------------------------------------------ *)
(** ** The caches and the script *)

Ltac framed_tac :=
  repeat first
    [ apply framed_bind; [|intros ?]
    | apply framed_ret | apply framed_stop | apply framed_raise
    | apply framed_getitem | apply framed_emit | apply framed_emit_all
    | apply framed_mapM; intros ?
    | progress cbv zeta
    | match goal with
      | |- framed (match ?x with _ => _ end) => destruct x
      end ].

Section ScriptFacts.

Variable normalize : str -> str.
Variable fs : FileSystem.

Lemma tab1_framed (e : EnvData) (g : GrowthData) : framed (tab1 e g).
Proof. unfold tab1, info_rows. framed_tac. Qed.

Lemma tab2_framed (sel : str) (e : EnvData) : framed (tab2 sel e).
Proof. unfold tab2. framed_tac. Qed.

Lemma tab3_framed (g : GrowthData) : framed (tab3 g).
Proof. unfold tab3. framed_tac. Qed.

Lemma render_framed (sel : str) (e : option EnvData) (g : option GrowthData) :
  framed (render sel e g).
Proof.
  unfold render. destruct e, g; try apply framed_stop.
  framed_tac.
Qed.

Lemma render_emits (sel : str) (e : option EnvData) (g : option GrowthData) :
  emits (fun _ => True) (render sel e g).
Proof.
  unfold render, tab1, tab2, tab3, info_rows.
  destruct e, g; try apply emits_stop.
  emits_tac; auto; try (apply emits_mapM; intros ?; emits_tac);
    try (apply Forall_forall; auto).
Qed.

Lemma render_reads_nothing (sel : str) (e : option EnvData) (g : option GrowthData) :
  io_log (snd (render sel e g init_state)) = [].
Proof.
  destruct (render_emits sel e g init_state) as (o & es & E & _). now rewrite E.
Qed.

Lemma env_entry_eq (v : option EnvData) (d : State) :
  (forall s, load_environment_body normalize fs s = (Value v, extend s d)) ->
  env_entry normalize fs = (v, ui d) /\
  io_log (snd (load_environment_body normalize fs init_state)) = io_log d.
Proof. intros H. unfold env_entry. now rewrite (H init_state). Qed.

Lemma growth_entry_eq (v : option GrowthData) (d : State) :
  (forall s, load_growth_body normalize fs s = (Value v, extend s d)) ->
  growth_entry normalize fs = (v, ui d) /\
  io_log (snd (load_growth_body normalize fs init_state)) = io_log d.
Proof. intros H. unfold growth_entry. now rewrite (H init_state). Qed.

Lemma load_environment_data_run (v : option EnvData) (d : State) (s : State) :
  (forall s, load_environment_body normalize fs s = (Value v, extend s d)) ->
  load_environment_data normalize fs s
  = match env_cache s with
    | Some (a, drawn) => (Value a, with_ui s (ui s ++ drawn))
    | None => (Value v, put_env (v, ui d) (extend s d))
    end.
Proof.
  intros H. unfold load_environment_data, cache_data.
  destruct (env_cache s) as [[a drawn]|]; [reflexivity|].
  rewrite H. reflexivity.
Qed.

Lemma load_growth_data_run (v : option GrowthData) (d : State) (s : State) :
  (forall s, load_growth_body normalize fs s = (Value v, extend s d)) ->
  load_growth_data normalize fs s
  = match growth_cache s with
    | Some (a, drawn) => (Value a, with_ui s (ui s ++ drawn))
    | None => (Value v, put_growth (v, ui d) (extend s d))
    end.
Proof.
  intros H. unfold load_growth_data, cache_data.
  destruct (growth_cache s) as [[a drawn]|]; [reflexivity|].
  rewrite H. reflexivity.
Qed.

(** A run of the script in any state of a process serving [fs]: both caches
    are filled at the end, the reads are those of the loaders whose cache was
    empty, and the page is drawn from the loaders' values alone. *)
Lemma dashboard_run (sel : str) (s : State) :
  cached_from normalize fs s ->
  dashboard normalize fs sel s
  = (fst (render sel (fst (env_entry normalize fs))
                 (fst (growth_entry normalize fs)) init_state),
     {| env_cache := Some (env_entry normalize fs);
        growth_cache := Some (growth_entry normalize fs);
        io_log := io_log s ++ cold_reads normalize fs s;
        ui := ui s ++ [Static page_config; Static css]
                   ++ snd (env_entry normalize fs)
                   ++ snd (growth_entry normalize fs)
                   ++ ui (snd (render sel (fst (env_entry normalize fs))
                                     (fst (growth_entry normalize fs))
                                     init_state)) |}).
Proof.
  intros [He Hg].
  destruct (load_environment_body_run normalize fs) as (ve & de & Be).
  destruct (load_growth_body_value normalize fs) as (vg & dg & Bg).
  destruct (env_entry_eq _ _ Be) as [Ee Re].
  destruct (growth_entry_eq _ _ Bg) as [Eg Rg].
  unfold cold_reads. rewrite Re, Rg, Ee, Eg in *. simpl.
  assert (Hrender := render_framed sel ve vg).
  assert (Hquiet := render_reads_nothing sel ve vg).
  destruct s as [ce cg reads drawn]; simpl in *.
  unfold dashboard.
  rewrite (bind_value _ _ (emit _) _ _ _ tt eq_refl).
  rewrite (bind_value _ _ (emit _) _ _ _ tt eq_refl).
  destruct He as [-> | ->], Hg as [-> | ->]; simpl.
  all: (erewrite bind_value;
        [|rewrite (load_environment_data_run _ _ _ Be); simpl; reflexivity]).
  all: (erewrite bind_value;
        [|rewrite (load_growth_data_run _ _ _ Bg); simpl; reflexivity]).
  all: rewrite Hrender; unfold extend, put_env, put_growth, with_ui; simpl.
  all: rewrite Hquiet; f_equal; f_equal; now rewrite ?app_nil_r, <- ?app_assoc.
Qed.

End ScriptFacts.

(* ------------------------------------------------------------------ *)
(** ** The process: reruns over the caches *)

Lemma cached_from_init (normalize : str -> str) (fs : FileSystem) :
  cached_from normalize fs init_state.
Proof. split; left; reflexivity. Qed.

Lemma page_of_eq (normalize : str -> str) (fs : FileSystem) (sel : str) :
  page_of normalize fs sel
  = (fst (render sel (fst (env_entry normalize fs))
                 (fst (growth_entry normalize fs)) init_state),
     [Static page_config; Static css]
       ++ snd (env_entry normalize fs)
       ++ snd (growth_entry normalize fs)
       ++ ui (snd (render sel (fst (env_entry normalize fs))
                          (fst (growth_entry normalize fs)) init_state))).
Proof.
  unfold page_of.
  now rewrite (dashboard_run normalize fs sel init_state (cached_from_init _ _)).
Qed.

Lemma process_run (normalize : str -> str) (fs : FileSystem) (sels : list str) :
  forall s,
    cached_from normalize fs s ->
    fst (process normalize fs sels s) = map (page_of normalize fs) sels /\
    io_log (snd (process normalize fs sels s))
    = io_log s ++ match sels with [] => [] | _ :: _ => cold_reads normalize fs s end.
Proof.
  induction sels as [|sel rest IH]; intros s Hs; simpl.
  - split; [reflexivity | now rewrite app_nil_r].
  - assert (Hs' : cached_from normalize fs (with_ui s [])) by exact Hs.
    rewrite (dashboard_run normalize fs sel _ Hs'). simpl.
    match goal with
    | |- context [process normalize fs rest ?t] =>
        destruct (IH t) as [Hp Hio]; [split; right; reflexivity|];
        rewrite Hp, Hio
    end.
    rewrite page_of_eq. split; [reflexivity|].
    simpl. destruct rest; unfold cold_reads; simpl; now rewrite ?app_nil_r.
Qed.

(** C7.  In every state of the process, a second call of a loader returns
    what the first call returned, reads no file and leaves both caches as
    they were.  In a process started fresh, however many times the script
    runs, the file reads are those of one execution of each loader body,
    made by the first run, and every run draws the page a fresh process
    would draw for the same selection. *)
Theorem loaders_memoized :
  forall (normalize : str -> str) (fs : FileSystem),
    (forall s,
        let r1 := load_environment_data normalize fs s in
        let r2 := load_environment_data normalize fs (snd r1) in
        fst r2 = fst r1 /\ io_log (snd r2) = io_log (snd r1) /\
        env_cache (snd r2) = env_cache (snd r1) /\
        growth_cache (snd r2) = growth_cache (snd r1))
    /\ (forall s,
        let r1 := load_growth_data normalize fs s in
        let r2 := load_growth_data normalize fs (snd r1) in
        fst r2 = fst r1 /\ io_log (snd r2) = io_log (snd r1) /\
        env_cache (snd r2) = env_cache (snd r1) /\
        growth_cache (snd r2) = growth_cache (snd r1))
    /\ (forall sel sels,
        let once := process normalize fs [sel] init_state in
        let many := process normalize fs (sel :: sels) init_state in
        io_log (snd many) = io_log (snd once) /\
        io_log (snd once)
        = io_log (snd (load_environment_body normalize fs init_state))
          ++ io_log (snd (load_growth_body normalize fs init_state)) /\
        fst many = map (page_of normalize fs) (sel :: sels)).
Proof.
  intros normalize fs.
  destruct (load_environment_body_run normalize fs) as (ve & de & Be).
  destruct (load_growth_body_value normalize fs) as (vg & dg & Bg).
  split; [|split].
  - intros s. cbv zeta.
    rewrite (load_environment_data_run _ _ _ _ s Be).
    destruct (env_cache s) as [[a drawn]|] eqn:C; cbn [fst snd];
      rewrite (load_environment_data_run _ _ _ _ _ Be); simpl;
      rewrite ?C; simpl; auto.
  - intros s. cbv zeta.
    rewrite (load_growth_data_run _ _ _ _ s Bg).
    destruct (growth_cache s) as [[a drawn]|] eqn:C; cbn [fst snd];
      rewrite (load_growth_data_run _ _ _ _ _ Bg); simpl;
      rewrite ?C; simpl; auto.
  - intros sel sels. cbv zeta.
    destruct (process_run normalize fs [sel] init_state (cached_from_init _ _))
      as [_ H1].
    destruct (process_run normalize fs (sel :: sels) init_state (cached_from_init _ _))
      as [Hp Hn].
    rewrite Hn, H1. repeat split; auto.
Qed.

(* ------------------------------------------------------------------ *)
(** ** Missing files *)

(** C4.  If the environment file of one of the four schools is not resolved,
    the environment loader returns [None], no mapping, and draws one error
    naming the first unresolved file in the order of [EC_INFO]; every run of
    the script then stops after the page set-up, that error and the growth
    loader's own error if it has one: no table, metric or chart is drawn. *)
Theorem missing_environment_file_halts :
  forall (normalize : str -> str) (fs : FileSystem) (school : str),
    In school (dict_keys EC_INFO) ->
    find_file_by_name normalize (listing fs) (env_filename school) = None ->
    exists missing growth_errors,
      In missing (dict_keys EC_INFO) /\
      find_file_by_name normalize (listing fs) (env_filename missing) = None /\
      fst (load_environment_data normalize fs init_state) = Value None /\
      ui (snd (load_environment_data normalize fs init_state))
      = [Error (env_error_prefix ++ env_filename missing)] /\
      (growth_errors = [] \/ growth_errors = [Error growth_error]) /\
      forall sels,
        Forall (fun run =>
                  run = (Stopped,
                         [Static page_config; Static css;
                          Error (env_error_prefix ++ env_filename missing)]
                           ++ growth_errors))
               (fst (process normalize fs sels init_state)).
Proof.
  intros normalize fs school Hin Hnone.
  destruct (load_environment_loop_missing normalize fs (dict_keys EC_INFO))
    as (before & missing & after & reads & Hk & _ & Hm & Hrun); [eauto|].
  specialize (Hrun []). fold (load_environment_body normalize fs) in Hrun.
  destruct (env_entry_eq normalize fs _ _ Hrun) as [Ee _].
  assert (Hg : exists vg errs,
             growth_entry normalize fs = (vg, errs) /\
             (errs = [] \/ errs = [Error growth_error])).
  { unfold growth_entry. rewrite load_growth_body_run.
    destruct (find_file_by_name normalize (listing fs) xlsx_name);
      simpl; eauto. }
  destruct Hg as (vg & errs & Eg & Herrs).
  exists missing, errs. repeat split.
  - rewrite Hk. apply in_elt.
  - exact Hm.
  - rewrite (load_environment_data_run _ _ _ _ init_state Hrun). reflexivity.
  - rewrite (load_environment_data_run _ _ _ _ init_state Hrun). reflexivity.
  - exact Herrs.
  - intros sels.
    destruct (process_run normalize fs sels init_state (cached_from_init _ _))
      as [-> _].
    apply Forall_forall. intros run Hrun'. apply in_map_iff in Hrun'.
    destruct Hrun' as (sel & <- & _).
    rewrite page_of_eq, Ee, Eg. simpl. now rewrite app_nil_r.
Qed.

(** The third school's file is absent: the loader reports it and the runs
    stop. *)
Lemma missing_environment_file_halts_ara :
  exists missing growth_errors,
    In missing (dict_keys EC_INFO) /\
    find_file_by_name Hangul.nfc
      (listing (sample_fs [env_filename songdo; env_filename haneul;
                           env_filename dongsan; xlsx_name] []))
      (env_filename missing) = None /\
    fst (load_environment_data Hangul.nfc
           (sample_fs [env_filename songdo; env_filename haneul;
                       env_filename dongsan; xlsx_name] []) init_state)
    = Value None /\
    ui (snd (load_environment_data Hangul.nfc
               (sample_fs [env_filename songdo; env_filename haneul;
                           env_filename dongsan; xlsx_name] []) init_state))
    = [Error (env_error_prefix ++ env_filename missing)] /\
    (growth_errors = [] \/ growth_errors = [Error growth_error]) /\
    forall sels,
      Forall (fun run =>
                run = (Stopped,
                       [Static page_config; Static css;
                        Error (env_error_prefix ++ env_filename missing)]
                         ++ growth_errors))
             (fst (process Hangul.nfc
                     (sample_fs [env_filename songdo; env_filename haneul;
                                 env_filename dongsan; xlsx_name] [])
                     sels init_state)).
Proof.
  apply (missing_environment_file_halts Hangul.nfc
           (sample_fs [env_filename songdo; env_filename haneul;
                       env_filename dongsan; xlsx_name] [])
           ara).
  - simpl; auto.
  - reflexivity.
Defined.

(* ------------------------------------------------------------------ *)
(** ** The growth loader's school and EC columns *)

Lemma load_growth_loop_Forall (xls : dict (list GrowthRaw))
    (P : str * list GrowthRow -> Prop) (sheets : list str) :
  (forall sheet, P (sheet, tag_growth sheet (read_excel xls sheet))) ->
  forall data, Forall P data -> Forall P (load_growth_loop xls sheets data).
Proof.
  intros HP. induction sheets as [|sheet rest IH]; intros data Hd; simpl.
  - exact Hd.
  - apply IH. apply dict_set_Forall; auto.
Qed.

Lemma EC_INFO_lookup (sheet : str) :
  (forall q, In (sheet, q) EC_INFO -> dict_get EC_INFO sheet = Some q) /\
  (~ In sheet (dict_keys EC_INFO) -> dict_get EC_INFO sheet = None).
Proof.
  split.
  - intros q H. simpl in H.
    repeat (destruct H as [H | H]; [injection H as <- <-; reflexivity|]).
    destruct H.
  - intros H. destruct (dict_get EC_INFO sheet) eqn:E; [|reflexivity].
    exfalso; apply H. apply dict_get_keys. congruence.
Qed.

Lemma str_eqb_sym (a b : str) : str_eqb a b = str_eqb b a.
Proof.
  destruct (str_eqb a b) eqn:E.
  - apply str_eqb_eq in E; subst. now rewrite str_eqb_refl.
  - destruct (str_eqb b a) eqn:E'; [|reflexivity].
    apply str_eqb_eq in E'; subst. now rewrite str_eqb_refl in E.
Qed.

(** What the loop stores under a name: for a sheet it has gone through, the
    sheet's rows with the two columns added. *)
Lemma load_growth_loop_get (xls : dict (list GrowthRaw)) (sheets : list str) :
  forall data k,
    dict_get (load_growth_loop xls sheets data) k
    = if existsb (str_eqb k) sheets
      then Some (tag_growth k (read_excel xls k))
      else dict_get data k.
Proof.
  induction sheets as [|sheet rest IH]; intros data k; simpl; [reflexivity|].
  rewrite IH, dict_get_set, (str_eqb_sym k sheet).
  destruct (existsb (str_eqb k) rest); [now rewrite orb_true_r|].
  rewrite orb_false_r. destruct (str_eqb sheet k) eqn:E; [|reflexivity].
  apply str_eqb_eq in E; now subst.
Qed.

Lemma existsb_str_eqb (k : str) (l : list str) :
  In k l <-> existsb (str_eqb k) l = true.
Proof.
  rewrite existsb_exists. split.
  - intros H. exists k; split; [exact H | apply str_eqb_refl].
  - intros (x & Hx & E). apply str_eqb_eq in E. now subst.
Qed.

(** The mapping the loop builds from nothing has the workbook's sheets as
    its keys. *)
Lemma load_growth_loop_keys (xls : dict (list GrowthRaw)) (sheet : str) :
  In sheet (dict_keys (load_growth_loop xls (dict_keys xls) []))
  <-> In sheet (dict_keys xls).
Proof.
  rewrite dict_get_keys, load_growth_loop_get, existsb_str_eqb.
  destruct (existsb (str_eqb sheet) (dict_keys xls)); simpl.
  - split; [reflexivity | discriminate].
  - split; [congruence | discriminate].
Qed.

(** C3.  When its cache is empty the growth loader returns a value and never
    raises.  In the mapping it returns, every row of the table stored for a
    sheet carries that sheet as its school and, as its EC, the entry of
    [EC_INFO] for that sheet: the table's value for one of the four schools,
    the missing value for any other sheet.  The mapping is that of the
    workbook the resolver found: its keys are the workbook's sheets, and the
    table stored for a sheet is the sheet's rows, in their order, each with
    the two columns added. *)
Theorem growth_rows_carry_school_ec :
  forall (normalize : str -> str) (fs : FileSystem) (s : State),
    growth_cache s = None ->
    match fst (load_growth_data normalize fs s) with
    | Value (Some data) =>
        Forall (fun entry =>
                  Forall (fun row =>
                            growth_school row = fst entry /\
                            EC row = dict_get EC_INFO (fst entry) /\
                            (forall q, In (fst entry, q) EC_INFO -> EC row = Some q) /\
                            (~ In (fst entry) (dict_keys EC_INFO) -> EC row = None))
                         (snd entry))
               data
        /\ exists p,
             find_file_by_name normalize (listing fs) xlsx_name = Some p /\
             (forall sheet,
                In sheet (dict_keys data)
                <-> In sheet (dict_keys (excel_sheets fs p))) /\
             (forall sheet rows,
                dict_get (excel_sheets fs p) sheet = Some rows ->
                exists df,
                  dict_get data sheet = Some df /\
                  map growth_raw df = rows /\
                  Forall (fun row =>
                            growth_school row = sheet /\
                            EC row = dict_get EC_INFO sheet /\
                            (forall q, In (sheet, q) EC_INFO -> EC row = Some q) /\
                            (~ In sheet (dict_keys EC_INFO) -> EC row = None))
                         df)
    | Value None =>
        find_file_by_name normalize (listing fs) xlsx_name = None
    | _ => False
    end.
Proof.
  intros normalize fs s Hc.
  destruct (load_growth_body_value normalize fs) as (vg & dg & Bg).
  rewrite (load_growth_data_run _ _ _ _ s Bg), Hc. simpl.
  specialize (Bg init_state). rewrite load_growth_body_run in Bg.
  destruct (find_file_by_name normalize (listing fs) xlsx_name) as [p|];
    injection Bg as <- _; [|reflexivity].
  assert (Tag : forall sheet rows,
             Forall (fun row =>
                       growth_school row = sheet /\
                       EC row = dict_get EC_INFO sheet /\
                       (forall q, In (sheet, q) EC_INFO -> EC row = Some q) /\
                       (~ In sheet (dict_keys EC_INFO) -> EC row = None))
                    (tag_growth sheet rows)).
  { intros sheet rows. unfold tag_growth. apply Forall_map, Forall_forall.
    intros raw _. simpl.
    destruct (EC_INFO_lookup sheet) as [H1 H2].
    repeat split; auto. }
  split; [|exists p; split; [reflexivity | split]].
  - apply load_growth_loop_Forall; [|constructor].
    intros sheet. apply Tag.
  - apply load_growth_loop_keys.
  - intros sheet rows G.
    exists (tag_growth sheet rows). split; [|split; [|apply Tag]].
    + rewrite load_growth_loop_get.
      rewrite (proj1 (existsb_str_eqb sheet _)).
      * unfold read_excel. now rewrite G.
      * apply dict_get_keys. congruence.
    + unfold tag_growth. rewrite map_map. simpl. apply map_id.
Qed.

(** A workbook with a school's sheet and a sheet that is no school. *)
Lemma growth_rows_carry_school_ec_sample :
  match fst (load_growth_data Hangul.nfc
               (sample_fs [xlsx_name]
                  [(songdo, [raw_weight (Some 3%Q)]);
                   (other_sheet, [raw_weight (Some 5%Q)])])
               init_state) with
  | Value (Some data) =>
      Forall (fun entry =>
                Forall (fun row =>
                          growth_school row = fst entry /\
                          EC row = dict_get EC_INFO (fst entry) /\
                          (forall q, In (fst entry, q) EC_INFO -> EC row = Some q) /\
                          (~ In (fst entry) (dict_keys EC_INFO) -> EC row = None))
                       (snd entry))
             data
      /\ exists p,
           find_file_by_name Hangul.nfc
             (listing (sample_fs [xlsx_name]
                         [(songdo, [raw_weight (Some 3%Q)]);
                          (other_sheet, [raw_weight (Some 5%Q)])]))
             xlsx_name = Some p /\
           (forall sheet,
              In sheet (dict_keys data)
              <-> In sheet
                    (dict_keys
                       (excel_sheets
                          (sample_fs [xlsx_name]
                             [(songdo, [raw_weight (Some 3%Q)]);
                              (other_sheet, [raw_weight (Some 5%Q)])]) p))) /\
           (forall sheet rows,
              dict_get
                (excel_sheets
                   (sample_fs [xlsx_name]
                      [(songdo, [raw_weight (Some 3%Q)]);
                       (other_sheet, [raw_weight (Some 5%Q)])]) p) sheet
              = Some rows ->
              exists df,
                dict_get data sheet = Some df /\
                map growth_raw df = rows /\
                Forall (fun row =>
                          growth_school row = sheet /\
                          EC row = dict_get EC_INFO sheet /\
                          (forall q, In (sheet, q) EC_INFO -> EC row = Some q) /\
                          (~ In sheet (dict_keys EC_INFO) -> EC row = None))
                       df)
  | Value None =>
      find_file_by_name Hangul.nfc
        (listing (sample_fs [xlsx_name]
                    [(songdo, [raw_weight (Some 3%Q)]);
                     (other_sheet, [raw_weight (Some 5%Q)])]))
        xlsx_name = None
  | _ => False
  end.
Proof.
  apply (growth_rows_carry_school_ec Hangul.nfc
           (sample_fs [xlsx_name]
              [(songdo, [raw_weight (Some 3%Q)]);
               (other_sheet, [raw_weight (Some 5%Q)])])
           init_state).
  reflexivity.
Defined.

(** The mapping loaded from that workbook: the school's row has the school's
    EC, the other sheet's row has none. *)
Example load_growth_data_sample :
  fst (load_growth_data Hangul.nfc
         (sample_fs [xlsx_name]
            [(songdo, [raw_weight (Some 3%Q)]);
             (other_sheet, [raw_weight (Some 5%Q)])])
         init_state)
  = Value (Some [(songdo, [growth_row songdo (Some 1%Q) (Some 3%Q)]);
                 (other_sheet, [growth_row other_sheet None (Some 5%Q)])]).
Proof. reflexivity. Qed.

(* ------------------------------------------------------------------ *)
(** ** The overview's total count *)

Lemma info_rows_run (g : GrowthData) (l : list (str * Q)) (s : State) :
  Forall (fun kv => dict_get g (fst kv) <> None) l ->
  mapM (fun kv : str * Q =>
          let* df := getitem g (fst kv) in ret (fst kv, snd kv, length df)) l s
  = (Value (map (fun kv => (fst kv, snd kv, rows_of g (fst kv))) l), s).
Proof.
  induction 1 as [|kv l Hkv Hl IH]; simpl; [reflexivity|].
  destruct (dict_get g (fst kv)) as [df|] eqn:E; [|congruence].
  erewrite bind_value;
    [|unfold getitem; rewrite E; unfold bind, ret; reflexivity].
  erewrite bind_value; [|exact IH].
  unfold ret, rows_of. now rewrite E.
Qed.

Lemma total_plants_rows (g : GrowthData) (l : list (str * Q)) :
  total_plants (map (fun kv => (fst kv, snd kv, rows_of g (fst kv))) l)
  = fold_right Nat.add 0 (map (rows_of g) (dict_keys l)).
Proof.
  unfold total_plants, dict_keys. now rewrite !map_map.
Qed.

Lemma best_ec_overview_defined (growth_all : list GrowthRow) :
  (exists r, In r growth_all /\ EC r <> None /\ growth_weight r <> None) ->
  exists ec, best_ec_overview growth_all = Some ec.
Proof.
  intros (r & Hr & He & Hw).
  destruct (mean_by_EC_defined growth_all r Hr He Hw) as (k & m & Hin).
  destruct (best_ec_overview growth_all) as [ec|] eqn:B; [eauto|].
  apply idxmax_none in B. rewrite Forall_forall in B.
  specialize (B _ Hin). discriminate.
Qed.

Lemma tab2_tab3_not_total (sel : str) (e : EnvData) (g : GrowthData) :
  emits not_total (tab2 sel e ;; tab3 g).
Proof.
  unfold tab2, tab3, ec_metrics.
  emits_tac; try (intros k; discriminate).
  apply Forall_map, Forall_forall. intros row _ k. discriminate.
Qed.

Lemma tab1_run (e : EnvData) (g : GrowthData) (s : State) :
  Forall (fun kv : str * Q => dict_get g (fst kv) <> None) EC_INFO ->
  tab1 e g s
  = match best_ec_overview (concat (dict_values g)) with
    | Some best_ec =>
        (Value tt,
         with_ui s
           (ui s ++
            [Static subheader; Static markdown; Static subheader;
             InfoTable (map (fun kv => (fst kv, snd kv, rows_of g (fst kv))) EC_INFO);
             ShowMetric (TotalPlants
                           (fold_right Nat.add 0
                              (map (rows_of g) (dict_keys EC_INFO))));
             ShowMetric (AvgTemperature
                           (mean (env_col temperature (concat (dict_values e)))));
             ShowMetric (AvgHumidity
                           (mean (env_col humidity (concat (dict_values e)))));
             ShowMetric (BestEC best_ec)]))
    | None =>
        (Raised ValueError,
         with_ui s
           (ui s ++
            [Static subheader; Static markdown; Static subheader;
             InfoTable (map (fun kv => (fst kv, snd kv, rows_of g (fst kv))) EC_INFO)]))
    end.
Proof.
  intros Hkeys. unfold tab1, info_rows.
  do 2 rewrite (bind_value _ _ (emit _) _ _ _ tt eq_refl).
  erewrite bind_value; [|apply info_rows_run; exact Hkeys].
  do 2 rewrite (bind_value _ _ (emit _) _ _ _ tt eq_refl).
  cbv zeta. rewrite total_plants_rows.
  destruct (best_ec_overview (concat (dict_values g))) as [best|].
  - do 3 rewrite (bind_value _ _ (emit _) _ _ _ tt eq_refl).
    unfold emit, with_ui; simpl. now rewrite <- !app_assoc.
  - unfold raise, with_ui; simpl. now rewrite <- !app_assoc.
Qed.

(** The page of a run when both loaders returned a mapping and the growth
    mapping has the four schools: the overview's elements, with the metrics
    if there is a best EC, then elements that are not the total count. *)
Lemma render_loaded (sel : str) (e : EnvData) (g : GrowthData) :
  Forall (fun kv : str * Q => dict_get g (fst kv) <> None) EC_INFO ->
  exists rest,
    Forall not_total rest /\
    ui (snd (render sel (Some e) (Some g) init_state))
    = [Static sidebar_title; Static selectbox; Static title; Static tabs;
       Static subheader; Static markdown; Static subheader;
       InfoTable (map (fun kv => (fst kv, snd kv, rows_of g (fst kv))) EC_INFO)]
      ++ match best_ec_overview (concat (dict_values g)) with
         | Some best_ec =>
             [ShowMetric (TotalPlants
                            (fold_right Nat.add 0
                               (map (rows_of g) (dict_keys EC_INFO))));
              ShowMetric (AvgTemperature
                            (mean (env_col temperature (concat (dict_values e)))));
              ShowMetric (AvgHumidity
                            (mean (env_col humidity (concat (dict_values e)))));
              ShowMetric (BestEC best_ec)] ++ rest
         | None => []
         end.
Proof.
  intros Hkeys. unfold render.
  do 4 rewrite (bind_value _ _ (emit _) _ _ _ tt eq_refl).
  match goal with
  | |- context [bind (tab1 e g) _ ?s4] => pose proof (tab1_run e g s4 Hkeys) as T
  end.
  destruct (best_ec_overview (concat (dict_values g))) as [best|].
  - rewrite (bind_value _ _ _ _ _ _ _ T).
    match goal with
    | |- context [bind (tab2 sel e) _ ?s5] =>
        destruct (tab2_tab3_not_total sel e g s5) as (o & rest & Hrun & Hrest)
    end.
    exists rest. split; [exact Hrest|]. rewrite Hrun. reflexivity.
  - exists []. split; [constructor|].
    unfold bind at 1. rewrite T. reflexivity.
Qed.

(** C6.  When the four environment files and the spreadsheet are resolved and
    the four schools are among the spreadsheet's sheets, the growth loader
    returns a mapping with each school's tagged sheet, and a total count
    drawn by a run is the sum over the four schools of the number of rows of
    the school's growth table; it is drawn when some school row has a fresh
    weight, so that the overview's best EC exists. *)
Theorem total_plants_is_sum_of_school_rows :
  forall (normalize : str -> str) (fs : FileSystem) (sel p : str),
    (forall school, In school (dict_keys EC_INFO) ->
       find_file_by_name normalize (listing fs) (env_filename school) <> None) ->
    find_file_by_name normalize (listing fs) xlsx_name = Some p ->
    (forall school, In school (dict_keys EC_INFO) ->
       In school (dict_keys (excel_sheets fs p))) ->
    exists growth_data,
      fst (load_growth_data normalize fs init_state) = Value (Some growth_data) /\
      (forall school, In school (dict_keys EC_INFO) ->
         dict_get growth_data school
         = Some (tag_growth school (read_excel (excel_sheets fs p) school))) /\
      (forall k, In (ShowMetric (TotalPlants k)) (snd (page_of normalize fs sel)) ->
         k = fold_right Nat.add 0 (map (rows_of growth_data) (dict_keys EC_INFO))) /\
      ((exists school raw,
           In school (dict_keys EC_INFO) /\
           In raw (read_excel (excel_sheets fs p) school) /\
           weight raw <> None) ->
       In (ShowMetric
             (TotalPlants
                (fold_right Nat.add 0 (map (rows_of growth_data) (dict_keys EC_INFO)))))
          (snd (page_of normalize fs sel))).
Proof.
  intros normalize fs sel p Henv Hxlsx Hsheets.
  destruct (load_environment_loop_found normalize fs (dict_keys EC_INFO)
              (proj2 (Forall_forall _ _) Henv) [])
    as (e & reads & Be).
  fold (load_environment_body normalize fs) in Be.
  destruct (env_entry_eq normalize fs _ _ Be) as [Ee _].
  set (xls := excel_sheets fs p) in *.
  set (g := load_growth_loop xls (dict_keys xls) []).
  assert (Bg : forall s, load_growth_body normalize fs s
                         = (Value (Some g), extend s (delta [IterDir; OpenExcel p] []))).
  { intros s. rewrite load_growth_body_run, Hxlsx. reflexivity. }
  destruct (growth_entry_eq normalize fs _ _ Bg) as [Eg _].
  assert (Hget : forall school, In school (dict_keys EC_INFO) ->
                   dict_get g school = Some (tag_growth school (read_excel xls school))).
  { intros school Hin. unfold g.
    now rewrite load_growth_loop_get, (proj1 (existsb_str_eqb _ _) (Hsheets school Hin)). }
  assert (Hkeys : Forall (fun kv : str * Q => dict_get g (fst kv) <> None) EC_INFO).
  { apply Forall_forall. intros kv Hkv.
    rewrite (Hget (fst kv)); [discriminate|]. now apply in_map. }
  destruct (render_loaded sel e g Hkeys) as (rest & Hrest & Hui).
  exists g. split; [|split; [exact Hget|]].
  { rewrite (load_growth_data_run _ _ _ _ init_state Bg). reflexivity. }
  rewrite page_of_eq, Ee, Eg. cbn [fst snd]. rewrite Hui. split.
  - intros k Hin. simpl in Hin.
    repeat (destruct Hin as [Hin | Hin]; [discriminate|]).
    destruct (best_ec_overview (concat (dict_values g))); [|destruct Hin].
    simpl in Hin. destruct Hin as [Hin | Hin]; [now injection Hin|].
    repeat (destruct Hin as [Hin | Hin]; [discriminate|]).
    rewrite Forall_forall in Hrest. now destruct (Hrest _ Hin k).
  - intros (school & raw & Hs & Hraw & Hw).
    destruct (best_ec_overview_defined (concat (dict_values g))) as (best & ->).
    { exists {| growth_school := school; EC := dict_get EC_INFO school;
                growth_raw := raw |}.
      repeat split.
      - apply in_concat. exists (tag_growth school (read_excel xls school)).
        split; [|unfold tag_growth; apply in_map_iff; eauto].
        apply (in_map snd _ _ (dict_get_In _ _ _ _ (Hget school Hs))).
      - change (dict_get EC_INFO school <> None). now apply dict_get_keys.
      - exact Hw. }
    simpl. do 10 right. left. reflexivity.
Qed.

(** Four schools with 2, 1, 0 and 1 rows: the overview shows 4. *)
Lemma total_plants_is_sum_of_school_rows_sample :
  exists growth_data,
    fst (load_growth_data Hangul.nfc
           (sample_fs full_listing
              [(songdo, [raw_weight (Some 5%Q); raw_weight None]);
               (haneul, [raw_weight (Some 5%Q)]);
               (ara, []);
               (dongsan, [raw_weight (Some 1%Q)])])
           init_state) = Value (Some growth_data) /\
    (forall school, In school (dict_keys EC_INFO) ->
       dict_get growth_data school
       = Some (tag_growth school
                 (read_excel
                    (excel_sheets
                       (sample_fs full_listing
                          [(songdo, [raw_weight (Some 5%Q); raw_weight None]);
                           (haneul, [raw_weight (Some 5%Q)]);
                           (ara, []);
                           (dongsan, [raw_weight (Some 1%Q)])])
                       xlsx_name)
                    school))) /\
    (forall k,
        In (ShowMetric (TotalPlants k))
           (snd (page_of Hangul.nfc
                   (sample_fs full_listing
                      [(songdo, [raw_weight (Some 5%Q); raw_weight None]);
                       (haneul, [raw_weight (Some 5%Q)]);
                       (ara, []);
                       (dongsan, [raw_weight (Some 1%Q)])])
                   songdo)) ->
        k = fold_right Nat.add 0 (map (rows_of growth_data) (dict_keys EC_INFO))) /\
    ((exists school raw,
         In school (dict_keys EC_INFO) /\
         In raw (read_excel
                   (excel_sheets
                      (sample_fs full_listing
                         [(songdo, [raw_weight (Some 5%Q); raw_weight None]);
                          (haneul, [raw_weight (Some 5%Q)]);
                          (ara, []);
                          (dongsan, [raw_weight (Some 1%Q)])])
                      xlsx_name)
                   school) /\
         weight raw <> None) ->
     In (ShowMetric
           (TotalPlants
              (fold_right Nat.add 0 (map (rows_of growth_data) (dict_keys EC_INFO)))))
        (snd (page_of Hangul.nfc
                (sample_fs full_listing
                   [(songdo, [raw_weight (Some 5%Q); raw_weight None]);
                    (haneul, [raw_weight (Some 5%Q)]);
                    (ara, []);
                    (dongsan, [raw_weight (Some 1%Q)])])
                songdo))).
Proof.
  apply (total_plants_is_sum_of_school_rows Hangul.nfc
           (sample_fs full_listing
              [(songdo, [raw_weight (Some 5%Q); raw_weight None]);
               (haneul, [raw_weight (Some 5%Q)]);
               (ara, []);
               (dongsan, [raw_weight (Some 1%Q)])])
           songdo xlsx_name).
  - intros school H. simpl in H.
    repeat (destruct H as [<- | H]; [vm_compute; discriminate|]). destruct H.
  - reflexivity.
  - intros school H. exact H.
Defined.

(* ------------------------------------------------------------------ *)
(** ** Per-school environment means *)











(* ------------------------------------------------------------------ *)
(** ** Concrete runs *)

(** The decomposed spelling of the first school's file name, as a file
    system that stores names in NFD holds it. *)
Example nfd_env_filename_songdo :
  Hangul.nfd (env_filename songdo)
  = [4361; 4457; 4540; 4355; 4457; 4352; 4457; 95; 4370; 4458; 4523; 4352;
     4455; 4540; 4355; 4454; 4363; 4469; 4368; 4453; 46; 99; 115; 118]%N.
Proof. reflexivity. Qed.

Example nfc_env_filename_songdo :
  Hangul.nfc (Hangul.nfd (env_filename songdo)) = env_filename songdo.
Proof. reflexivity. Qed.

Example resolve_decomposed_name :
  find_file_by_name Hangul.nfc
    [xlsx_name; Hangul.nfd (env_filename songdo); env_filename songdo]
    (env_filename songdo)
  = Some (Hangul.nfd (env_filename songdo)).
Proof. reflexivity. Qed.

Example best_ec_tie_is_lowest :
  best_ec_overview [growth_row haneul (Some 2%Q) (Some 5%Q);
                    growth_row songdo (Some 1%Q) (Some 5%Q)] = Some 1%Q.
Proof. reflexivity. Qed.

(** A group whose weights are all missing has no mean and is passed over. *)
Example best_ec_skips_missing_mean :
  mean_by_EC growth_weight [growth_row dongsan (Some 8%Q) None;
                            growth_row songdo (Some 1%Q) (Some 3%Q)]
  = [(1%Q, Some 3%Q); (8%Q, None)]
  /\ best_ec_overview [growth_row dongsan (Some 8%Q) None;
                       growth_row songdo (Some 1%Q) (Some 3%Q)] = Some 1%Q.
Proof. split; reflexivity. Qed.

(** The overview of a run over four sheets with 2, 1, 0 and 1 rows. *)
Example overview_metrics_sample :
  let fs := sample_fs full_listing
              [(songdo, [raw_weight (Some 5%Q); raw_weight None]);
               (haneul, [raw_weight (Some 5%Q)]);
               (ara, []);
               (dongsan, [raw_weight (Some 1%Q)])] in
  fst (page_of Hangul.nfc fs all_schools) = Value tt
  /\ firstn 4 (skipn 10 (snd (page_of Hangul.nfc fs all_schools)))
     = [ShowMetric (TotalPlants 4);
        ShowMetric (AvgTemperature (Some 20%Q));
        ShowMetric (AvgHumidity None);
        ShowMetric (BestEC 1%Q)].
Proof. split; reflexivity. Qed.

(** Three schools have readings, the fourth has none: three rows of means,
    in the order of the school names, none for the fourth school. *)
Example env_mean_without_dongsan :
  let env_all := [ {| env_school := songdo; env_raw := sample_reading (Some 0%Q) |};
                   {| env_school := haneul; env_raw := sample_reading (Some 21%Q) |};
                   {| env_school := songdo; env_raw := sample_reading (Some 0%Q) |};
                   {| env_school := ara; env_raw := sample_reading None |} ] in
  map (fun row => (fst (snd row), mean_temperature (snd (snd row)))) (env_mean env_all)
  = [(songdo, Some 0%Q); (ara, None); (haneul, Some 21%Q)].
Proof. reflexivity. Qed.

(** A second run of the script reads no file. *)
Example rerun_reads_nothing :
  let fs := sample_fs full_listing [(songdo, [raw_weight (Some 5%Q)])] in
  io_log (snd (process Hangul.nfc fs [all_schools] init_state))
  = io_log (snd (process Hangul.nfc fs [all_schools; songdo; all_schools] init_state))
  /\ length (io_log (snd (process Hangul.nfc fs [all_schools] init_state))) = 10.
Proof. vm_compute. split; reflexivity. Qed.
